(** * A chat backend over a relational store: model and properties

    Shallow embedding of [src/main.py] (a FastAPI application over three
    SQL tables, with bearer tokens signed by python-jose and passwords hashed
    by passlib).

    - Tables are lists of rows in insertion order, each with the serial
      sequence that numbers its primary key.  The driver refuses a text
      parameter that holds U+0000 and an integer parameter outside the
      32-bit range of the id columns.
    - [datetime] values are integers: microseconds since the epoch.  Every
      call of [datetime.utcnow()] is one reading of the world's clock.
    - Handlers are computations in a state-and-exception monad over the
      world (store, clock, salt source).  An exception that no handler
      catches stays in the outcome; the framework answers it with 500.
    - HMAC-SHA256 and bcrypt (as passlib wraps it, refusals included) are the
      members of an interface; nothing below depends on how they compute. *)

From Stdlib Require Import ZArith List Ascii String Bool Lia Permutation Sorted.
Import ListNotations.

Local Open Scope string_scope.
Local Open Scope list_scope.
Local Open Scope Z_scope.

(** ** Configuration (lines 17-19) *)

Definition SECRET_KEY : string := "boicandance".
Definition ALGORITHM : string := "HS256".
Definition ACCESS_TOKEN_EXPIRE_MINUTES : Z := 30.

(** ** Time *)

(** A [datetime] is a number of microseconds since the epoch, a [timedelta]
    a number of microseconds. *)
Definition datetime := Z.
Definition timedelta := Z.

Definition timedelta_minutes (m : Z) : timedelta := m * 60 * 1000000.

(** [datetime.min] and [datetime.max]: the first microsecond of year 1 and
    the last of year 9999. *)
Definition datetime_min : datetime := -62135596800000000.
Definition datetime_max : datetime := 253402300799999999.

(** [calendar.timegm(d.utctimetuple())]: whole seconds, the microseconds
    dropped.  python-jose applies it to a [datetime] claim when it encodes
    and to the current time when it validates. *)
Definition timegm (d : datetime) : Z := d / 1000000.

(** ** Rows of the three tables (lines 24-47) *)

Record UserRow := mkUserRow {
  u_id : Z;
  u_username : string;
  u_hashed_password : string }.

Record RoomRow := mkRoomRow {
  r_id : Z;
  r_name : string }.

Record MessageRow := mkMessageRow {
  m_id : Z;
  m_room_id : Z;
  m_user_id : Z;
  m_content : string;
  m_timestamp : datetime }.

(** The store: each table in insertion order, and for each the last value
    its serial primary key has taken. *)
Record Database := mkDatabase {
  users : list UserRow;
  users_seq : Z;
  rooms : list RoomRow;
  rooms_seq : Z;
  messages : list MessageRow;
  messages_seq : Z }.

Definition empty_database : Database := mkDatabase [] 0 [] 0 [] 0.

(** What the driver accepts as a parameter: text without U+0000, and for an
    [Integer] column an integer of 32 bits. *)
Fixpoint has_nul (s : string) : bool :=
  match s with
  | EmptyString => false
  | String c s' => Ascii.eqb c Ascii.zero || has_nul s'
  end.

Definition pg_text (s : string) : bool := negb (has_nul s).

Definition int32 (z : Z) : bool := (-2147483648 <=? z) && (z <=? 2147483647).

(** ** Request and response models (lines 58-81) *)

Record UserIn := mkUserIn { ui_username : string; ui_password : string }.
Record RoomIn := mkRoomIn { ri_name : string }.
Record RoomOut := mkRoomOut { ro_id : Z; ro_name : string }.
Record MessageIn := mkMessageIn { mi_content : string }.

Record MessageOut := mkMessageOut {
  mo_id : Z;
  mo_room_id : Z;
  mo_user_id : Z;
  mo_content : string;
  mo_timestamp : datetime }.

(** The form posted to the token route: the two fields [login] reads, and
    no other field of [OAuth2PasswordRequestForm] submitted. *)
Record LoginForm := mkLoginForm { form_username : string; form_password : string }.

(** ** Tokens *)

(** A JSON value as far as a string claim is concerned: a string, or
    something that is not a string. *)
Inductive json :=
| JString (s : string)
| JNumber (n : Z)
| JNull.

(** A JSON value as python-jose reads a time claim, by what [int()] makes of
    it: an integer; a [ValueError] (a string that is no numeral, a NaN); or
    another exception, which python-jose does not catch (a [TypeError] for
    null, an array or an object, an [OverflowError] for an infinity). *)
Inductive int_view :=
| IntOf (z : Z)
| IntValueError
| IntRaises (exception : string).

(** The dictionary handed to [jwt.encode]: the subject claim, and the expiry
    as the [datetime] that [create_access_token] puts there. *)
Record claims := mkClaims {
  c_sub : option json;
  c_exp : option datetime }.

(** The JSON object a compact token carries, by the claims python-jose
    looks at: "sub" and "jti" as values, the time claims "exp", "iat" and
    "nbf" as [int()] reads them, and whether "aud" and "at_hash" are there.
    Other members play no part in decoding. *)
Record payload := mkPayload {
  p_sub : option json;
  p_exp : option int_view;
  p_iat : option int_view;
  p_nbf : option int_view;
  p_jti : option json;
  p_aud : bool;
  p_at_hash : bool }.

(** The bearer string, by what parsing makes of it: either it does not split
    into three base64url segments holding JSON objects with a string "alg"
    in the header, or it does, and then it is a header algorithm, a payload
    and a signature.  The signature is taken over the header and payload as
    parsed: one serialisation stands for all. *)
Inductive jws :=
| Malformed (raw : string)
| Compact (alg : string) (body : payload) (signature : string).

Record Token := mkToken { access_token : jws; token_type : string }.

(** ** Outcomes *)

(** What a computation raises: an [HTTPException] of the source, the
    [JWTError] of python-jose, the validation error with which the framework
    refuses a request (answered 422), or an exception of another class, by
    its name, that nothing in the source catches (answered 500). *)
Inductive exn :=
| HTTPException (status_code : Z) (detail : string) (headers : list (string * string))
| JWTError
| RequestValidationError
| Unhandled (exception : string).

Definition status_of (e : exn) : option Z :=
  match e with
  | HTTPException c _ _ => Some c
  | JWTError => None
  | RequestValidationError => Some 422
  | Unhandled _ => Some 500
  end.

Inductive outcome (A : Type) :=
| Returns (a : A)
| Raises (e : exn).

Arguments Returns {A} a.
Arguments Raises {A} e.

(** ** The world a request runs in *)

Record World := mkWorld {
  db : Database;
  clock : nat -> datetime;   (* the successive readings of utcnow() *)
  ticks : nat;               (* how many readings were taken *)
  salts : nat -> string;     (* the successive salts bcrypt draws *)
  draws : nat }.

Definition M (A : Type) : Type := World -> outcome A * World.

Definition ret {A} (a : A) : M A := fun w => (Returns a, w).

Definition raise {A} (e : exn) : M A := fun w => (Raises e, w).

Definition bind {A B} (m : M A) (k : A -> M B) : M B :=
  fun w =>
    match m w with
    | (Returns a, w') => k a w'
    | (Raises e, w') => (Raises e, w')
    end.

Notation "x <- m ;; k" := (bind m (fun x => k))
  (at level 61, m at next level, right associativity).
Notation "m ;;; k" := (bind m (fun _ => k))
  (at level 61, right associativity).

(** [try: body except JWTError: handler]. *)
Definition try_except_JWTError {A} (body : M A) (handler : M A) : M A :=
  fun w =>
    match body w with
    | (Raises JWTError, w') => handler w'
    | r => r
    end.

Definition get_db : M Database := fun w => (Returns (db w), w).

Definition put_db (d : Database) : M unit :=
  fun w => (Returns tt, mkWorld d (clock w) (ticks w) (salts w) (draws w)).

(** [datetime.utcnow()]. *)
Definition utcnow : M datetime :=
  fun w => (Returns (clock w (ticks w)),
            mkWorld (db w) (clock w) (S (ticks w)) (salts w) (draws w)).

Definition gensalt : M string :=
  fun w => (Returns (salts w (draws w)),
            mkWorld (db w) (clock w) (ticks w) (salts w) (S (draws w))).

Definition result_of {A} (r : outcome A * World) : outcome A := fst r.
Definition world_of {A} (r : outcome A * World) : World := snd r.

(** The time the next reading of the clock gives. *)
Definition now (w : World) : datetime := clock w (ticks w).

(** Whether a number of microseconds is a [datetime]: within the years 1
    to 9999. *)
Definition representable (t : Z) : bool :=
  (datetime_min <=? t) && (t <=? datetime_max).

(** [t + d] on a [datetime]: an [OverflowError] where the sum is none. *)
Definition datetime_add (t : datetime) (d : timedelta) : M datetime :=
  if representable (t + d) then ret (t + d)
  else raise (Unhandled "OverflowError").

(** ** The cryptographic primitives *)

Class Crypto := {
  (** HMAC over the serialised header and payload, under [key]. *)
  hmac_sign : string -> string -> payload -> string;
  (** [pwd_context.hash]: salt and password to hash string; [None] where
      passlib refuses the password (one that holds a NUL, for one). *)
  bcrypt_hash : string -> string -> option string;
  (** [pwd_context.verify] of a password against a hash string; [None]
      where passlib refuses the password. *)
  bcrypt_verify : string -> string -> option bool }.

Section Application.

Context {crypto : Crypto}.

(** ** python-jose: [jwt.encode] and [jwt.decode] *)

(** [jwt.encode(claims, key, algorithm)]: a [datetime] under "exp" becomes
    its [timegm]; the payload is signed under the header's algorithm. *)
Definition jwt_encode (c : claims) (key : string) (algorithm : string) : jws :=
  let body := mkPayload (c_sub c) (option_map (fun d => IntOf (timegm d)) (c_exp c))
                        None None None false false in
  Compact algorithm body (hmac_sign key algorithm body).

(** [int(claims[...])] inside [try ... except ValueError]: the
    [ValueError] becomes a [JWTClaimsError], any other exception passes. *)
Definition as_int (claim : int_view) : M Z :=
  match claim with
  | IntOf z => ret z
  | IntValueError => raise JWTError
  | IntRaises exception => raise (Unhandled exception)
  end.

(** "iat", if present, must convert to an integer. *)
Definition validate_iat (p : payload) : M unit :=
  match p_iat p with
  | None => ret tt
  | Some claim => as_int claim ;;; ret tt
  end.

(** "nbf", if present, must not be later than the current time in whole
    seconds. *)
Definition validate_nbf (p : payload) : M unit :=
  match p_nbf p with
  | None => ret tt
  | Some claim =>
      nbf <- as_int claim ;;
      t <- utcnow ;;
      if timegm t <? nbf then raise JWTError else ret tt
  end.

(** The expiry check: no "exp", nothing to check and the clock is not read;
    otherwise the token is expired when "exp" is less than the current time
    in whole seconds. *)
Definition validate_exp (p : payload) : M unit :=
  match p_exp p with
  | None => ret tt
  | Some claim =>
      exp <- as_int claim ;;
      t <- utcnow ;;
      if exp <? timegm t then raise JWTError else ret tt
  end.

(** No audience is passed to [jwt.decode]: a token that carries "aud" is
    refused. *)
Definition validate_aud (p : payload) : M unit :=
  if p_aud p then raise JWTError else ret tt.

(** "sub" and "jti", if present, must be strings. *)
Definition validate_string_claim (claim : option json) : M unit :=
  match claim with
  | None => ret tt
  | Some (JString _) => ret tt
  | Some _ => raise JWTError
  end.

(** No access token is passed to [jwt.decode]: a token that carries
    "at_hash" is refused. *)
Definition validate_at_hash (p : payload) : M unit :=
  if p_at_hash p then raise JWTError else ret tt.

(** [jwt.decode(token, key, algorithms=...)]: the token must parse, its
    header algorithm must be one of [algorithms], its signature must be the
    one [key] gives, and its claims must validate, in python-jose's order.
    Every failure python-jose detects is a [JWTError]. *)
Definition jwt_decode (token : jws) (key : string) (algorithms : list string)
  : M payload :=
  match token with
  | Malformed _ => raise JWTError
  | Compact alg body sig =>
      if negb (existsb (String.eqb alg) algorithms) then raise JWTError
      else if negb (String.eqb sig (hmac_sign key alg body)) then raise JWTError
      else
        validate_iat body ;;;
        validate_nbf body ;;;
        validate_exp body ;;;
        validate_aud body ;;;
        validate_string_claim (p_sub body) ;;;
        validate_string_claim (p_jti body) ;;;
        validate_at_hash body ;;;
        ret body
  end.

(** ** Queries on the store *)

(** [database.fetch_one] of a select with one parameter: the first row that
    matches; when none does, [None] if the driver accepts the parameter and
    its error if not.  (No stored value is one the driver refuses, so a
    refused parameter matches no row.) *)
Definition fetch_one {A} (accepted : bool) (matching : option A) : M (option A) :=
  match matching with
  | Some row => ret (Some row)
  | None => if accepted then ret None else raise (Unhandled "DataError")
  end.

Definition fetch_one_user_by_username (username : string) : M (option UserRow) :=
  d <- get_db ;;
  fetch_one (pg_text username)
    (find (fun u => String.eqb (u_username u) username) (users d)).

Definition fetch_one_room_by_name (name : string) : M (option RoomRow) :=
  d <- get_db ;;
  fetch_one (pg_text name)
    (find (fun r => String.eqb (r_name r) name) (rooms d)).

Definition fetch_one_room_by_id (room_id : Z) : M (option RoomRow) :=
  d <- get_db ;;
  fetch_one (int32 room_id) (find (fun r => r_id r =? room_id) (rooms d)).

(** [users.insert().values(...)] executed: the row goes last, its key is the
    next value of the sequence, and that key is the result.  Where the
    driver refuses a value nothing is stored. *)
Definition insert_user (username hashed_password : string) : M Z :=
  d <- get_db ;;
  if pg_text username && pg_text hashed_password then
    let id := users_seq d + 1 in
    put_db (mkDatabase (users d ++ [mkUserRow id username hashed_password]) id
                       (rooms d) (rooms_seq d) (messages d) (messages_seq d)) ;;;
    ret id
  else raise (Unhandled "DataError").

Definition insert_room (name : string) : M Z :=
  d <- get_db ;;
  if pg_text name then
    let id := rooms_seq d + 1 in
    put_db (mkDatabase (users d) (users_seq d)
                       (rooms d ++ [mkRoomRow id name]) id
                       (messages d) (messages_seq d)) ;;;
    ret id
  else raise (Unhandled "DataError").

(** The two ids are values read from the tables just before. *)
Definition insert_message (room_id user_id : Z) (content : string)
    (timestamp : datetime) : M Z :=
  d <- get_db ;;
  if pg_text content then
    let id := messages_seq d + 1 in
    put_db (mkDatabase (users d) (users_seq d) (rooms d) (rooms_seq d)
                       (messages d ++ [mkMessageRow id room_id user_id content timestamp])
                       id) ;;;
    ret id
  else raise (Unhandled "DataError").

(** [ORDER BY timestamp], as a stable insertion sort: rows with equal
    timestamps keep their order. *)
Fixpoint insert_by_timestamp (x : MessageRow) (l : list MessageRow) : list MessageRow :=
  match l with
  | [] => [x]
  | y :: l' =>
      if m_timestamp x <=? m_timestamp y then x :: y :: l'
      else y :: insert_by_timestamp x l'
  end.

Fixpoint order_by_timestamp (l : list MessageRow) : list MessageRow :=
  match l with
  | [] => []
  | x :: l' => insert_by_timestamp x (order_by_timestamp l')
  end.

Definition where_room_id (room_id : Z) (l : list MessageRow) : list MessageRow :=
  filter (fun m => m_room_id m =? room_id) l.

Definition RoomOut_of_row (r : RoomRow) : RoomOut :=
  mkRoomOut (r_id r) (r_name r).

Definition MessageOut_of_row (m : MessageRow) : MessageOut :=
  mkMessageOut (m_id m) (m_room_id m) (m_user_id m) (m_content m) (m_timestamp m).

(** ** Helper functions (lines 84-124) *)

Definition verify_password (plain_password hashed_password : string) : M bool :=
  match bcrypt_verify plain_password hashed_password with
  | Some verdict => ret verdict
  | None => raise (Unhandled "PasswordValueError")
  end.

Definition get_password_hash (password : string) : M string :=
  salt <- gensalt ;;
  match bcrypt_hash salt password with
  | Some hashed => ret hashed
  | None => raise (Unhandled "PasswordValueError")
  end.

Definition get_user_by_username (username : string) : M (option UserRow) :=
  fetch_one_user_by_username username.

(** The result [False] of the source is [None] here. *)
Definition authenticate_user (username password : string) : M (option UserRow) :=
  user <- get_user_by_username username ;;
  match user with
  | None => ret None
  | Some u =>
      verified <- verify_password password (u_hashed_password u) ;;
      if negb verified then ret None
      else ret (Some u)
  end.

(** [expires_delta or timedelta(minutes=...)]: a zero [timedelta] is falsy.
    The sum with the configured minutes is taken to be a [datetime]: the
    clock is not within that many minutes of [datetime.max]. *)
Definition create_access_token (data : claims) (expires_delta : option timedelta)
  : M jws :=
  let to_encode := data in
  t <- utcnow ;;
  expire <-
    match expires_delta with
    | Some d =>
        if d =? 0 then ret (t + timedelta_minutes ACCESS_TOKEN_EXPIRE_MINUTES)
        else datetime_add t d
    | None => ret (t + timedelta_minutes ACCESS_TOKEN_EXPIRE_MINUTES)
    end ;;
  let to_encode := mkClaims (c_sub to_encode) (Some expire) in
  ret (jwt_encode to_encode SECRET_KEY ALGORITHM).

Definition credentials_exception : exn :=
  HTTPException 401 "Could not validate credentials" [("WWW-Authenticate", "Bearer")].

(** [OAuth2PasswordBearer(tokenUrl="token")]: the bearer credential of the
    Authorization header; [None] stands for a request without one. *)
Definition oauth2_scheme (authorization : option jws) : M jws :=
  match authorization with
  | None => raise (HTTPException 401 "Not authenticated" [("WWW-Authenticate", "Bearer")])
  | Some token => ret token
  end.

(** The last branch cannot be taken: [jwt_decode] returns no payload whose
    subject is not a string (lemma [jwt_decode_sub_string]). *)
Definition get_current_user (token : jws) : M UserRow :=
  username <-
    try_except_JWTError
      (payload <- jwt_decode token SECRET_KEY [ALGORITHM] ;;
       match p_sub payload with
       | None | Some JNull => raise credentials_exception
       | Some username => ret username
       end)
      (raise credentials_exception) ;;
  match username with
  | JString name =>
      user <- get_user_by_username name ;;
      match user with
      | None => raise credentials_exception
      | Some u => ret u
      end
  | _ => raise (Unhandled "DataError")
  end.

(** [Depends(get_current_user)], itself depending on [oauth2_scheme]. *)
Definition current_user_dependency (authorization : option jws) : M UserRow :=
  token <- oauth2_scheme authorization ;;
  get_current_user token.

(** [OAuth2PasswordRequestForm = Depends()]: both fields are required, and
    the framework takes an empty value for a missing one. *)
Definition OAuth2PasswordRequestForm (submitted : LoginForm) : M LoginForm :=
  if String.eqb (form_username submitted) "" || String.eqb (form_password submitted) ""
  then raise RequestValidationError
  else ret submitted.

(** ** Routes (lines 138-209) *)

Definition register (user_in : UserIn) : M Token :=
  user <- get_user_by_username (ui_username user_in) ;;
  match user with
  | Some _ => raise (HTTPException 400 "Username already registered" [])
  | None =>
      hashed_password <- get_password_hash (ui_password user_in) ;;
      insert_user (ui_username user_in) hashed_password ;;;
      access_token <-
        create_access_token (mkClaims (Some (JString (ui_username user_in))) None) None ;;
      ret (mkToken access_token "bearer")
  end.

Definition login (submitted : LoginForm) : M Token :=
  form_data <- OAuth2PasswordRequestForm submitted ;;
  user <- authenticate_user (form_username form_data) (form_password form_data) ;;
  match user with
  | None => raise (HTTPException 400 "Incorrect username or password" [])
  | Some u =>
      access_token <-
        create_access_token (mkClaims (Some (JString (u_username u))) None) None ;;
      ret (mkToken access_token "bearer")
  end.

Definition create_room (room_in : RoomIn) (authorization : option jws) : M RoomOut :=
  current_user <- current_user_dependency authorization ;;
  existing <- fetch_one_room_by_name (ri_name room_in) ;;
  match existing with
  | Some _ => raise (HTTPException 400 "Room already exists" [])
  | None =>
      room_id <- insert_room (ri_name room_in) ;;
      ret (mkRoomOut room_id (ri_name room_in))
  end.

Definition list_rooms (authorization : option jws) : M (list RoomOut) :=
  current_user <- current_user_dependency authorization ;;
  d <- get_db ;;
  ret (map RoomOut_of_row (rooms d)).

Definition post_message (room_id : Z) (message_in : MessageIn)
    (authorization : option jws) : M MessageOut :=
  current_user <- current_user_dependency authorization ;;
  room <- fetch_one_room_by_id room_id ;;
  match room with
  | None => raise (HTTPException 404 "Room not found" [])
  | Some _ =>
      timestamp <- utcnow ;;
      message_id <-
        insert_message room_id (u_id current_user) (mi_content message_in) timestamp ;;
      timestamp' <- utcnow ;;
      ret (mkMessageOut message_id room_id (u_id current_user)
                        (mi_content message_in) timestamp')
  end.

Definition list_messages (room_id : Z) (authorization : option jws)
  : M (list MessageOut) :=
  current_user <- current_user_dependency authorization ;;
  room <- fetch_one_room_by_id room_id ;;
  match room with
  | None => raise (HTTPException 404 "Room not found" [])
  | Some _ =>
      d <- get_db ;;
      ret (map MessageOut_of_row
             (order_by_timestamp (where_room_id room_id (messages d))))
  end.

(** The debug route: no dependency, and the rows as they are. *)
Definition list_users : M (list UserRow) :=
  d <- get_db ;;
  ret (users d).

(** ** Requests, responses and runs *)

Inductive request :=
| POST_register (user_in : UserIn)
| POST_token (submitted : LoginForm)
| POST_rooms (authorization : option jws) (room_in : RoomIn)
| GET_rooms (authorization : option jws)
| POST_room_messages (authorization : option jws) (room_id : Z) (message_in : MessageIn)
| GET_room_messages (authorization : option jws) (room_id : Z)
| GET_debug_users.

Inductive response :=
| TokenBody (t : Token)
| RoomBody (r : RoomOut)
| RoomsBody (l : list RoomOut)
| MessageBody (m : MessageOut)
| MessagesBody (l : list MessageOut)
| UsersBody (l : list UserRow).

Definition fmap {A B} (f : A -> B) (m : M A) : M B :=
  a <- m ;; ret (f a).

Definition handle (req : request) : M response :=
  match req with
  | POST_register user_in => fmap TokenBody (register user_in)
  | POST_token submitted => fmap TokenBody (login submitted)
  | POST_rooms authorization room_in => fmap RoomBody (create_room room_in authorization)
  | GET_rooms authorization => fmap RoomsBody (list_rooms authorization)
  | POST_room_messages authorization room_id message_in =>
      fmap MessageBody (post_message room_id message_in authorization)
  | GET_room_messages authorization room_id =>
      fmap MessagesBody (list_messages room_id authorization)
  | GET_debug_users => fmap UsersBody list_users
  end.

(** The routes that declare [Depends(get_current_user)], with the
    credential of the request. *)
Definition protected (req : request) : option (option jws) :=
  match req with
  | POST_rooms a _ | GET_rooms a | POST_room_messages a _ _ | GET_room_messages a _ => Some a
  | _ => None
  end.

(** The world after a sequence of requests, each served to completion. *)
Fixpoint run (reqs : list request) (w : World) : World :=
  match reqs with
  | [] => w
  | req :: reqs' => run reqs' (world_of (handle req w))
  end.

(** A world at start-up: empty tables, nothing read from the clock or the
    salt source. *)
Definition initial_world (clk : nat -> datetime) (slt : nat -> string) : World :=
  mkWorld empty_database clk 0 slt 0.

(** Every password hash a response body shows. *)
Definition hashes_in (r : response) : list string :=
  match r with
  | UsersBody l => map u_hashed_password l
  | _ => []
  end.

(** ** Views of the model in which the properties are stated *)

(** [w'] differs from [w] at most by clock readings taken. *)
Definition only_reads_clock (w w' : World) : Prop :=
  db w' = db w /\ clock w' = clock w /\ salts w' = salts w /\
  draws w' = draws w /\ (ticks w <= ticks w')%nat.

(** The expiry a token carries, in whole seconds since the epoch. *)
Definition token_expiry (token : jws) : option Z :=
  match token with
  | Compact _ body _ =>
      match p_exp body with
      | Some (IntOf exp) => Some exp
      | _ => None
      end
  | Malformed _ => None
  end.

(** The store after [insert_message]. *)
Definition with_message (d : Database) (room_id user_id : Z) (content : string)
    (timestamp : datetime) : Database :=
  mkDatabase (users d) (users_seq d) (rooms d) (rooms_seq d)
    (messages d ++
       [mkMessageRow (messages_seq d + 1) room_id user_id content timestamp])
    (messages_seq d + 1).

(** The store after [insert_user]. *)
Definition with_user (d : Database) (username hashed_password : string) : Database :=
  mkDatabase (users d ++ [mkUserRow (users_seq d + 1) username hashed_password])
    (users_seq d + 1) (rooms d) (rooms_seq d) (messages d) (messages_seq d).

(** [w'] comes after [w]: same clock and salt source, readings only taken;
    users and rooms only appended; and the messages either the same, or one
    more, stamped with a reading of the clock taken in between. *)
Definition comes_after (w w' : World) : Prop :=
  clock w' = clock w /\
  (ticks w <= ticks w')%nat /\
  (exists l, users (db w') = users (db w) ++ l) /\
  (exists l, rooms (db w') = rooms (db w) ++ l) /\
  (messages (db w') = messages (db w) \/
   exists row k,
     (ticks w <= k < ticks w')%nat /\
     m_timestamp row = clock w k /\
     messages (db w') = messages (db w) ++ [row]).

Definition ts_le (a b : MessageRow) : Prop := m_timestamp a <= m_timestamp b.

(** A clock that never goes back. *)
Definition monotone (clk : nat -> datetime) : Prop :=
  forall i j : nat, (i <= j)%nat -> clk i <= clk j.

(** The stored messages are in timestamp order, and none is stamped later
    than the next reading of the clock. *)
Definition stamped_in_order (w : World) : Prop :=
  StronglySorted ts_le (messages (db w)) /\
  Forall (fun m => m_timestamp m <= now w) (messages (db w)).

(** The store after [insert_room]. *)
Definition with_room (d : Database) (name : string) : Database :=
  mkDatabase (users d) (users_seq d)
    (rooms d ++ [mkRoomRow (rooms_seq d + 1) name]) (rooms_seq d + 1)
    (messages d) (messages_seq d).

(** The three ways the store changes: a user under a username not yet
    stored, a room under a name not yet stored, a message of a stored user in
    a stored room. *)
Inductive appended (d : Database) : Database -> Prop :=
| appended_user (username hashed_password : string) :
    find (fun u => String.eqb (u_username u) username) (users d) = None ->
    appended d (with_user d username hashed_password)
| appended_room (name : string) :
    find (fun r => String.eqb (r_name r) name) (rooms d) = None ->
    appended d (with_room d name)
| appended_message (room_id : Z) (u : UserRow) (r : RoomRow) (content : string)
    (timestamp : datetime) :
    In u (users d) ->
    find (fun r => r_id r =? room_id) (rooms d) = Some r ->
    appended d (with_message d room_id (u_id u) content timestamp).

(** The primary keys a serial sequence has given to [n] rows: 1, ..., n. *)
Definition keys (n : nat) : list Z := map Z.of_nat (seq 1 n).

(** Each table's keys are 1, 2, ... in insertion order and its sequence
    stands at the last of them; usernames and room names are pairwise
    distinct; every message refers to a stored room and a stored user. *)
Record consistent (d : Database) : Prop := mkConsistent {
  users_keys : map u_id (users d) = keys (List.length (users d));
  users_seq_last : users_seq d = Z.of_nat (List.length (users d));
  rooms_keys : map r_id (rooms d) = keys (List.length (rooms d));
  rooms_seq_last : rooms_seq d = Z.of_nat (List.length (rooms d));
  messages_keys : map m_id (messages d) = keys (List.length (messages d));
  messages_seq_last : messages_seq d = Z.of_nat (List.length (messages d));
  usernames_distinct : NoDup (map u_username (users d));
  room_names_distinct : NoDup (map r_name (rooms d));
  messages_refer :
    Forall (fun m => In (m_room_id m) (map r_id (rooms d)) /\
                     In (m_user_id m) (map u_id (users d)))
           (messages d) }.

(** A computation that leaves the store as it is, or returns and has made
    one append. *)
Definition appends_on_success {A} (m : M A) (w : World) : Prop :=
  db (snd (m w)) = db w \/
  ((exists a, fst (m w) = Returns a) /\ appended (db w) (db (snd (m w)))).

(** Whether a request can write at all: the three POST routes that insert. *)
Definition writes (req : request) : bool :=
  match req with
  | POST_register _ | POST_rooms _ _ | POST_room_messages _ _ _ => true
  | _ => false
  end.

(** The statuses a route answers with when it raises; 500 is the
    framework's answer to an exception the route does not handle. *)
Definition error_statuses (req : request) : list Z :=
  match req with
  | POST_register _ => [400; 500]
  | POST_token _ => [422; 400; 500]
  | POST_rooms _ _ => [401; 400; 500]
  | GET_rooms _ => [401; 500]
  | POST_room_messages _ _ _ => [401; 404; 500]
  | GET_room_messages _ _ => [401; 404; 500]
  | GET_debug_users => []
  end.

(** The lifetime [create_access_token] gives a token: the [expires_delta]
    passed, unless it is absent or zero, and then the configured minutes. *)
Definition lifetime (expires_delta : option timedelta) : timedelta :=
  match expires_delta with
  | Some d => if d =? 0 then timedelta_minutes ACCESS_TOKEN_EXPIRE_MINUTES else d
  | None => timedelta_minutes ACCESS_TOKEN_EXPIRE_MINUTES
  end.

(** A computation that, from any world, at most reads the clock. *)
Definition frames {A} (m : M A) : Prop :=
  forall w, only_reads_clock w (snd (m w)).

(** A computation that raises nothing but exceptions in [P]. *)
Definition raises_only {A} (P : exn -> Prop) (m : M A) : Prop :=
  forall w e, fst (m w) = Raises e -> P e.

(** What [jwt_decode] may raise: its own [JWTError], or what [int()]
    raised on a time claim. *)
Definition decode_error (e : exn) : Prop :=
  e = JWTError \/ exists exception, e = Unhandled exception.

(** What the dependency may raise: one of its two 401s, or an exception
    that nothing catches. *)
Definition dependency_error (e : exn) : Prop :=
  e = HTTPException 401 "Not authenticated" [("WWW-Authenticate", "Bearer")] \/
  e = credentials_exception \/
  exists exception, e = Unhandled exception.

(** What a post to a room that is not stored raises: 404, or the driver's
    error for an id outside its 32 bits. *)
Definition room_missing (room_id : Z) : exn :=
  if int32 room_id then HTTPException 404 "Room not found" []
  else Unhandled "DataError".

(** The world after a salt was drawn. *)
Definition drawn (w : World) : World :=
  mkWorld (db w) (clock w) (ticks w) (salts w) (S (draws w)).

(** [l'] is [l] with rows appended. *)
Definition extends {A} (l l' : list A) : Prop := exists more, l' = l ++ more.

End Application.

(** ** A concrete instance, for evaluating the model *)

(** Stand-ins for the primitives: a tag that spells out what it signs, and a
    hash that spells out the password; both bcrypt functions refuse a
    password that holds a NUL. *)
Definition demo_crypto : Crypto := {|
  hmac_sign key alg body :=
    String.append key
      (String.append ":"
         (String.append alg
            (String.append ":"
               (match p_sub body with Some (JString s) => s | _ => "-" end))));
  bcrypt_hash salt password :=
    if has_nul password then None
    else Some (String.append "$2b$" (String.append salt (String.append "$" password)));
  bcrypt_verify password hashed :=
    if has_nul password then None
    else match index 0 (String.append "$" password) hashed with
         | Some _ => Some true
         | None => Some false
         end |}.

(** A clock that advances a quarter of a second between readings. *)
Definition demo_clock (n : nat) : datetime :=
  1700000000000000 + Z.of_nat n * 250000.

Definition demo_salts (n : nat) : string := "salt".

Definition demo_start : World := initial_world demo_clock demo_salts.

Definition alice : UserIn := mkUserIn "alice" "pw1".

(** The token [register] answers alice with at start-up. *)
Definition alice_token : jws :=
  match result_of (register (crypto := demo_crypto) alice demo_start) with
  | Returns t => access_token t
  | Raises _ => Malformed ""
  end.

(** alice registered and the room "general" created. *)
Definition demo_room_world : World :=
  run (crypto := demo_crypto)
    [POST_register alice; POST_rooms (Some alice_token) (mkRoomIn "general")]
    demo_start.

Definition alice_row : UserRow := mkUserRow 1 "alice" "$2b$salt$pw1".

(** Then two messages posted by alice to that room. *)
Definition demo_chat_requests : list request :=
  [POST_register alice;
   POST_rooms (Some alice_token) (mkRoomIn "general");
   POST_room_messages (Some alice_token) 1 (mkMessageIn "hi");
   POST_room_messages (Some alice_token) 1 (mkMessageIn "again")].

(** The store of [demo_room_world], thirty-one minutes later on the clock. *)
Definition demo_late_world : World :=
  mkWorld (db demo_room_world)
          (fun n => demo_clock n + timedelta_minutes 31) 0 demo_salts 0.

(** A payload naming a user that was never registered. *)
Definition bob_payload : payload :=
  mkPayload (Some (JString "bob")) (Some (IntOf 1800000000)) None None None false false.

(** A clock that goes back a quarter of a second between readings. *)
Definition demo_back_clock (n : nat) : datetime :=
  1700000000000000 - Z.of_nat n * 250000.

(** The same four requests, served on the clock that goes back. *)
Definition demo_back_world : World :=
  run (crypto := demo_crypto) demo_chat_requests
    (initial_world demo_back_clock demo_salts).

(** alice, the room and her first message. *)
Definition demo_one_message : list request :=
  [POST_register alice;
   POST_rooms (Some alice_token) (mkRoomIn "general");
   POST_room_messages (Some alice_token) 1 (mkMessageIn "hi")].

(** The store of [demo_room_world], with the clock fifty milliseconds past
    thirty minutes after start-up. *)
Definition demo_just_late_world : World :=
  mkWorld (db demo_room_world)
          (fun n => demo_clock 0 + timedelta_minutes 30 + 50000) 0 demo_salts 0.

(** A registration whose password holds a NUL, and one for the same
    username whose password does not. *)
Definition carol_nul : UserIn := mkUserIn "carol" (String Ascii.zero "pw").
Definition carol : UserIn := mkUserIn "carol" "pw".

(** A payload without subject whose "exp" is null, and the token that
    carries it under the signature of the process. *)
Definition null_exp_payload : payload :=
  mkPayload None (Some (IntRaises "TypeError")) None None None false false.

Definition null_exp_token : jws :=
  Compact ALGORITHM null_exp_payload
    (hmac_sign (Crypto := demo_crypto) SECRET_KEY ALGORITHM null_exp_payload).

(** A payload without subject whose "exp" is an hour after start-up and
    whose "iat" is JSON null, and the token for it signed with the process
    secret. *)
Definition null_iat_payload : payload :=
  mkPayload None (Some (IntOf 1700003600)) (Some (IntRaises "TypeError"))
    None None false false.

Definition null_iat_token : jws :=
  Compact ALGORITHM null_iat_payload
    (hmac_sign (Crypto := demo_crypto) SECRET_KEY ALGORITHM null_iat_payload).

(** * Properties *)

Section Properties.

Context {crypto : Crypto}.

(** ** Whole seconds *)

Lemma timegm_mono (a b : datetime) : a <= b -> timegm a <= timegm b.
Proof.
  intros Hab. unfold timegm. apply Z.div_le_mono; lia.
Qed.

Lemma timegm_plus_minutes (t : datetime) (m : Z) :
  timegm (t + timedelta_minutes m) = timegm t + m * 60.
Proof.
  unfold timegm, timedelta_minutes.
  replace (t + m * 60 * 1000000) with (t + (m * 60) * 1000000) by lia.
  apply Z.div_add. lia.
Qed.

(** ** The monad *)

Lemma only_reads_clock_refl (w : World) : only_reads_clock w w.
Proof. unfold only_reads_clock. repeat split; auto. Qed.

Lemma only_reads_clock_trans (w1 w2 w3 : World) :
  only_reads_clock w1 w2 -> only_reads_clock w2 w3 -> only_reads_clock w1 w3.
Proof.
  unfold only_reads_clock.
  intros (D1 & C1 & S1 & R1 & T1) (D2 & C2 & S2 & R2 & T2).
  repeat split; try congruence. lia.
Qed.

Ltac unfold_monad :=
  unfold fmap, bind, ret, raise, try_except_JWTError, get_db, put_db, utcnow,
    gensalt, result_of, world_of in *.

Lemma frames_ret {A} (a : A) : frames (ret a).
Proof. intros w. apply only_reads_clock_refl. Qed.

Lemma frames_raise {A} (e : exn) : frames (raise (A := A) e).
Proof. intros w. apply only_reads_clock_refl. Qed.

Lemma frames_utcnow : frames utcnow.
Proof. intros w. unfold only_reads_clock; simpl. repeat split; auto. Qed.

Lemma frames_get_db : frames get_db.
Proof. intros w. apply only_reads_clock_refl. Qed.

Lemma frames_bind {A B} (m : M A) (k : A -> M B) :
  frames m -> (forall a, frames (k a)) -> frames (bind m k).
Proof.
  intros Hm Hk w. unfold bind. specialize (Hm w).
  destruct (m w) as [[a|e] w1]; simpl in *; [|exact Hm].
  eapply only_reads_clock_trans; [exact Hm | apply Hk].
Qed.

Lemma frames_if {A} (b : bool) (m1 m2 : M A) :
  frames m1 -> frames m2 -> frames (if b then m1 else m2).
Proof. destruct b; auto. Qed.

Lemma frames_fetch_one {A} (accepted : bool) (matching : option A) :
  frames (fetch_one accepted matching).
Proof.
  unfold fetch_one. destruct matching; [apply frames_ret|].
  destruct accepted; [apply frames_ret | apply frames_raise].
Qed.

Lemma raises_only_ret {A} (P : exn -> Prop) (a : A) : raises_only P (ret a).
Proof. intros w e H. discriminate. Qed.

Lemma raises_only_raise {A} (P : exn -> Prop) (e : exn) :
  P e -> raises_only P (raise (A := A) e).
Proof. intros He w e' H. inversion H; subst. exact He. Qed.

Lemma raises_only_utcnow (P : exn -> Prop) : raises_only P utcnow.
Proof. intros w e H. discriminate. Qed.

Lemma raises_only_bind {A B} (P : exn -> Prop) (m : M A) (k : A -> M B) :
  raises_only P m -> (forall a, raises_only P (k a)) -> raises_only P (bind m k).
Proof.
  intros Hm Hk w e. unfold bind. specialize (Hm w).
  destruct (m w) as [[a|e'] w1]; simpl in *.
  - apply Hk.
  - intros H. apply Hm. inversion H. reflexivity.
Qed.

Lemma raises_only_if {A} (P : exn -> Prop) (b : bool) (m1 m2 : M A) :
  raises_only P m1 -> raises_only P m2 -> raises_only P (if b then m1 else m2).
Proof. destruct b; auto. Qed.

(** A sequence that returns: its first part returned, and the rest did. *)
Lemma bind_returns {A B} (m : M A) (k : A -> M B) (w : World) (b : B) :
  fst (bind m k w) = Returns b ->
  exists a w1, m w = (Returns a, w1) /\ fst (k a w1) = Returns b.
Proof.
  unfold bind. destruct (m w) as [[a|e] w1]; simpl; [eauto | discriminate].
Qed.

Lemma bind_raises {A B} (m : M A) (k : A -> M B) (w w1 : World) (e : exn) :
  m w = (Raises e, w1) -> bind m k w = (Raises e, w1).
Proof. intros H. unfold bind. rewrite H. reflexivity. Qed.

(** ** [jwt_decode] *)

Lemma frames_as_int (claim : int_view) : frames (as_int claim).
Proof. destruct claim; [apply frames_ret | apply frames_raise | apply frames_raise]. Qed.

Lemma raises_only_as_int (claim : int_view) : raises_only decode_error (as_int claim).
Proof.
  destruct claim; [apply raises_only_ret | |]; apply raises_only_raise;
    unfold decode_error; eauto.
Qed.

Lemma frames_validate_string_claim (claim : option json) :
  frames (validate_string_claim claim).
Proof.
  unfold validate_string_claim.
  destruct claim as [[s|n|]|]; try apply frames_ret; apply frames_raise.
Qed.

Lemma raises_only_validate_string_claim (claim : option json) :
  raises_only decode_error (validate_string_claim claim).
Proof.
  unfold validate_string_claim.
  destruct claim as [[s|n|]|]; try apply raises_only_ret;
    apply raises_only_raise; left; reflexivity.
Qed.

Ltac frames_step :=
  first
    [ apply frames_ret | apply frames_raise | apply frames_utcnow
    | apply frames_get_db | apply frames_as_int
    | apply frames_validate_string_claim | apply frames_fetch_one
    | apply frames_bind; [|intros ?] | apply frames_if ].

Ltac raises_step :=
  first
    [ apply raises_only_ret | apply raises_only_utcnow | apply raises_only_as_int
    | apply raises_only_validate_string_claim
    | apply raises_only_raise; unfold decode_error; solve [eauto]
    | apply raises_only_bind; [|intros ?] | apply raises_only_if ].

Lemma jwt_decode_frame (token : jws) (key : string) (algorithms : list string)
    (w : World) :
  only_reads_clock w (snd (jwt_decode token key algorithms w)).
Proof.
  revert w. change (frames (jwt_decode token key algorithms)).
  unfold jwt_decode, validate_iat, validate_nbf, validate_exp, validate_aud,
    validate_at_hash.
  destruct token as [raw | alg body sig]; [apply frames_raise|].
  destruct (p_iat body), (p_nbf body), (p_exp body); repeat frames_step.
Qed.

(** Whatever [jwt_decode] raises is a [JWTError], or what [int()] raised. *)
Lemma jwt_decode_raises (token : jws) (key : string) (algorithms : list string)
    (w : World) (e : exn) :
  fst (jwt_decode token key algorithms w) = Raises e -> decode_error e.
Proof.
  revert w e. change (raises_only decode_error (jwt_decode token key algorithms)).
  unfold jwt_decode, validate_iat, validate_nbf, validate_exp, validate_aud,
    validate_at_hash.
  destruct token as [raw | alg body sig];
    [apply raises_only_raise; left; reflexivity|].
  destruct (p_iat body), (p_nbf body), (p_exp body); repeat raises_step.
Qed.

Lemma validate_string_claim_returns (claim : option json) (w : World) :
  fst (validate_string_claim claim w) = Returns tt ->
  claim = None \/ exists s, claim = Some (JString s).
Proof.
  destruct claim as [[s|n|]|]; simpl; intros H; try discriminate; eauto.
Qed.

(** A payload that [jwt_decode] returns is the payload of the token, under
    an allowed algorithm and the signature of the key, and has no subject or
    a string one. *)
Lemma jwt_decode_returns (token : jws) (key : string) (algorithms : list string)
    (w : World) (body : payload) :
  fst (jwt_decode token key algorithms w) = Returns body ->
  (exists alg,
     token = Compact alg body (hmac_sign key alg body) /\
     existsb (String.eqb alg) algorithms = true) /\
  (p_sub body = None \/ exists s, p_sub body = Some (JString s)).
Proof.
  unfold jwt_decode. destruct token as [raw | alg b sig]; [discriminate|].
  destruct (existsb (String.eqb alg) algorithms) eqn:Halg; [|discriminate].
  destruct (String.eqb sig (hmac_sign key alg b)) eqn:Hsig; [|discriminate].
  apply String.eqb_eq in Hsig. subst sig. simpl negb. cbv iota.
  intros H.
  apply bind_returns in H. destruct H as ([] & w1 & _ & H).
  apply bind_returns in H. destruct H as ([] & w2 & _ & H).
  apply bind_returns in H. destruct H as ([] & w3 & _ & H).
  apply bind_returns in H. destruct H as ([] & w4 & _ & H).
  apply bind_returns in H. destruct H as ([] & w5 & Hsub & H).
  apply bind_returns in H. destruct H as ([] & w6 & _ & H).
  apply bind_returns in H. destruct H as ([] & w7 & _ & H).
  inversion H; subst b. split; [eauto|].
  apply (validate_string_claim_returns _ w4). rewrite Hsub. reflexivity.
Qed.

Lemma jwt_decode_sub_string (token : jws) (key : string) (algorithms : list string)
    (w : World) (body : payload) :
  fst (jwt_decode token key algorithms w) = Returns body ->
  p_sub body = None \/ exists s, p_sub body = Some (JString s).
Proof. intros H. apply (jwt_decode_returns _ _ _ _ _ H). Qed.

(** ** The dependency that resolves the caller *)

Lemma get_user_by_username_run (name : string) (w : World) :
  get_user_by_username name w =
  match find (fun u => String.eqb (u_username u) name) (users (db w)) with
  | Some u => (Returns (Some u), w)
  | None =>
      if pg_text name then (Returns None, w)
      else (Raises (Unhandled "DataError"), w)
  end.
Proof.
  unfold get_user_by_username, fetch_one_user_by_username, fetch_one.
  unfold bind, get_db. simpl.
  destruct (find _ (users (db w))); [reflexivity|].
  destruct (pg_text name); reflexivity.
Qed.

(** [get_current_user], from the outcome of [jwt_decode]. *)
Lemma get_current_user_run (token : jws) (w : World) :
  get_current_user token w =
  match jwt_decode token SECRET_KEY [ALGORITHM] w with
  | (Returns body, w1) =>
      match p_sub body with
      | Some (JString name) =>
          match find (fun u => String.eqb (u_username u) name) (users (db w1)) with
          | Some u => (Returns u, w1)
          | None =>
              if pg_text name then (Raises credentials_exception, w1)
              else (Raises (Unhandled "DataError"), w1)
          end
      | Some (JNumber _) => (Raises (Unhandled "DataError"), w1)
      | _ => (Raises credentials_exception, w1)
      end
  | (Raises e, w1) =>
      (Raises match e with JWTError => credentials_exception | _ => e end, w1)
  end.
Proof.
  unfold get_current_user.
  unfold bind at 1. unfold try_except_JWTError. unfold bind at 1.
  destruct (jwt_decode token SECRET_KEY [ALGORITHM] w) as [[body|e] w1].
  - destruct (p_sub body) as [[name|n|]|]; simpl; try reflexivity.
    unfold bind. rewrite get_user_by_username_run.
    destruct (find _ (users (db w1))); [reflexivity|].
    destruct (pg_text name); reflexivity.
  - destruct e; reflexivity.
Qed.

Lemma get_current_user_frame (token : jws) (w : World) :
  only_reads_clock w (snd (get_current_user token w)).
Proof.
  rewrite get_current_user_run.
  pose proof (jwt_decode_frame token SECRET_KEY [ALGORITHM] w) as Hf.
  destruct (jwt_decode token SECRET_KEY [ALGORITHM] w) as [[body|e] w1];
    simpl in Hf; [|exact Hf].
  destruct (p_sub body) as [[name|n|]|]; simpl; auto.
  destruct (find _ (users (db w1))); simpl; auto.
  destruct (pg_text name); simpl; auto.
Qed.

(** Whom [get_current_user] returns: the stored user whose username is the
    subject of the payload that [jwt_decode] returned. *)
Lemma get_current_user_returns (token : jws) (w : World) (u : UserRow) :
  fst (get_current_user token w) = Returns u <->
  exists body name,
    fst (jwt_decode token SECRET_KEY [ALGORITHM] w) = Returns body /\
    p_sub body = Some (JString name) /\
    find (fun u => String.eqb (u_username u) name) (users (db w)) = Some u.
Proof.
  rewrite get_current_user_run.
  pose proof (jwt_decode_frame token SECRET_KEY [ALGORITHM] w) as Hf.
  destruct (jwt_decode token SECRET_KEY [ALGORITHM] w) as [[body|e] w1];
    simpl in Hf |- *; destruct Hf as (Hd & _).
  - rewrite Hd. split.
    + destruct (p_sub body) as [[name|n|]|] eqn:Hs; simpl; try discriminate.
      destruct (find _ (users (db w))) as [u'|] eqn:Hfind.
      * simpl. intros H; inversion H; subst. eauto.
      * destruct (pg_text name); discriminate.
    + intros (b & name & Hb & Hs & Hfind). inversion Hb; subst b.
      rewrite Hs, Hfind. reflexivity.
  - split; [discriminate|]. intros (b & name & Hb & _). discriminate.
Qed.

(** What [get_current_user] raises: the credentials error, or an exception
    that nothing catches. *)
Lemma get_current_user_raises (token : jws) (w : World) (e : exn) :
  fst (get_current_user token w) = Raises e ->
  e = credentials_exception \/ exists exception, e = Unhandled exception.
Proof.
  rewrite get_current_user_run.
  pose proof (jwt_decode_raises token SECRET_KEY [ALGORITHM] w) as Hr.
  destruct (jwt_decode token SECRET_KEY [ALGORITHM] w) as [[body|e'] w1]; simpl in *.
  - destruct (p_sub body) as [[name|n|]|]; simpl;
      try (intros H; inversion H; eauto; fail).
    destruct (find _ (users (db w1))); [discriminate|].
    destruct (pg_text name); simpl; intros H; inversion H; eauto.
  - destruct (Hr e' eq_refl) as [-> | (x & ->)]; intros H; inversion H; eauto.
Qed.

(** A token that [jwt_decode] refuses with [JWTError] gets the credentials
    error. *)
Lemma get_current_user_JWTError (token : jws) (w : World) :
  fst (jwt_decode token SECRET_KEY [ALGORITHM] w) = Raises JWTError ->
  fst (get_current_user token w) = Raises credentials_exception.
Proof.
  rewrite get_current_user_run.
  destruct (jwt_decode token SECRET_KEY [ALGORITHM] w) as [[body|e] w1]; simpl;
    [discriminate|].
  intros H; inversion H; subst. reflexivity.
Qed.

Lemma current_user_dependency_run (authorization : option jws) (w : World) :
  current_user_dependency authorization w =
  match authorization with
  | None =>
      (Raises (HTTPException 401 "Not authenticated" [("WWW-Authenticate", "Bearer")]),
       w)
  | Some token => get_current_user token w
  end.
Proof. destruct authorization; reflexivity. Qed.

Lemma current_user_dependency_frame (authorization : option jws) (w : World) :
  only_reads_clock w (snd (current_user_dependency authorization w)).
Proof.
  rewrite current_user_dependency_run.
  destruct authorization as [token|]; [|apply only_reads_clock_refl].
  apply get_current_user_frame.
Qed.

(** Whoever the dependency returns is a row of the users table. *)
Lemma dependency_returns_row (authorization : option jws) (w : World) (u : UserRow) :
  fst (current_user_dependency authorization w) = Returns u -> In u (users (db w)).
Proof.
  rewrite current_user_dependency_run.
  destruct authorization as [token|]; [|discriminate].
  intros H. apply get_current_user_returns in H.
  destruct H as (body & name & _ & _ & Hfind).
  apply find_some in Hfind. tauto.
Qed.

Lemma dependency_raises (authorization : option jws) (w : World) (e : exn) :
  fst (current_user_dependency authorization w) = Raises e -> dependency_error e.
Proof.
  rewrite current_user_dependency_run. unfold dependency_error.
  destruct authorization as [token|].
  - intros H. apply get_current_user_raises in H. tauto.
  - intros H; inversion H; auto.
Qed.

(** Whatever the dependency raises is answered 401 or 500. *)
Lemma dependency_error_status (e : exn) :
  dependency_error e -> status_of e = Some 401 \/ status_of e = Some 500.
Proof.
  intros [-> | [-> | (x & ->)]]; simpl; auto.
Qed.

(** Without a credential, or with a token that [jwt_decode] refuses with
    [JWTError], the dependency raises a 401. *)
Lemma dependency_unauthenticated (authorization : option jws) (w : World) :
  (authorization = None \/
   exists token, authorization = Some token /\
     fst (jwt_decode token SECRET_KEY [ALGORITHM] w) = Raises JWTError) ->
  exists e,
    fst (current_user_dependency authorization w) = Raises e /\
    status_of e = Some 401.
Proof.
  rewrite current_user_dependency_run.
  intros [-> | (token & -> & Hdec)].
  - eexists. split; reflexivity.
  - rewrite (get_current_user_JWTError _ _ Hdec). eexists. split; reflexivity.
Qed.

(** ** Issuing and verifying tokens *)

Lemma create_access_token_run (data : claims) (w : World) :
  create_access_token data None w =
  (Returns (jwt_encode
              (mkClaims (c_sub data)
                 (Some (now w + timedelta_minutes ACCESS_TOKEN_EXPIRE_MINUTES)))
              SECRET_KEY ALGORITHM),
   mkWorld (db w) (clock w) (S (ticks w)) (salts w) (draws w)).
Proof. reflexivity. Qed.

(** A token of this process for a string subject decodes exactly while the
    clock's whole seconds have not gone beyond its expiry. *)
Lemma jwt_decode_own_token (s : string) (d : datetime) (w : World) :
  fst (jwt_decode (jwt_encode (mkClaims (Some (JString s)) (Some d))
                     SECRET_KEY ALGORITHM)
         SECRET_KEY [ALGORITHM] w) =
  if timegm d <? timegm (now w) then Raises JWTError
  else Returns (mkPayload (Some (JString s)) (Some (IntOf (timegm d)))
                  None None None false false).
Proof.
  unfold jwt_decode, jwt_encode. simpl option_map. simpl c_sub.
  replace (existsb (String.eqb ALGORITHM) [ALGORITHM]) with true by reflexivity.
  rewrite String.eqb_refl. unfold now.
  unfold validate_iat, validate_nbf, validate_exp, validate_aud,
    validate_at_hash, validate_string_claim, as_int. unfold_monad. simpl.
  destruct (timegm d <? timegm (clock w (ticks w))); reflexivity.
Qed.

(** C1 (as amended). A token issued for subject [s] carries as expiry the
    whole second thirty minutes after the second of issuance.  While the
    clock's whole seconds have not passed that expiry, decoding succeeds
    and yields subject [s], and the caller resolved is the stored user
    named [s].  Once the clock's whole seconds have passed the expiry,
    decoding fails and so does the resolution of the caller.  A clock
    reading up to thirty minutes after issuance is before the expiry in
    that sense, one a second or more beyond is past it.  (The issuance is
    taken at a time from which thirty minutes on is still a [datetime].) *)
Theorem issue_verify_round_trip (s : string) (w w' : World) :
  representable (now w + timedelta_minutes ACCESS_TOKEN_EXPIRE_MINUTES) = true ->
  exists token exp,
    result_of (create_access_token (mkClaims (Some (JString s)) None) None w)
      = Returns token /\
    token_expiry token = Some exp /\
    exp = timegm (now w) + 30 * 60 /\
    (now w' <= now w + timedelta_minutes 30 -> timegm (now w') <= exp) /\
    (now w + timedelta_minutes 30 + 1000000 <= now w' -> exp < timegm (now w')) /\
    (timegm (now w') <= exp ->
       (exists body,
          result_of (jwt_decode token SECRET_KEY [ALGORITHM] w') = Returns body /\
          p_sub body = Some (JString s)) /\
       forall u,
         find (fun u => String.eqb (u_username u) s) (users (db w')) = Some u ->
         result_of (get_current_user token w') = Returns u) /\
    (exp < timegm (now w') ->
       result_of (jwt_decode token SECRET_KEY [ALGORITHM] w') = Raises JWTError /\
       result_of (get_current_user token w') = Raises credentials_exception).
Proof.
  intros _. rewrite create_access_token_run. simpl c_sub.
  set (d := now w + timedelta_minutes ACCESS_TOKEN_EXPIRE_MINUTES).
  exists (jwt_encode (mkClaims (Some (JString s)) (Some d)) SECRET_KEY ALGORITHM).
  exists (timegm d).
  assert (Hd : timegm d = timegm (now w) + 30 * 60)
    by (unfold d; apply timegm_plus_minutes).
  split; [reflexivity|]. split; [reflexivity|]. split; [exact Hd|].
  split; [intros Ht; apply timegm_mono; exact Ht|].
  split.
  { intros Ht. apply timegm_mono in Ht.
    assert (Hs : timegm (d + 1000000) = timegm d + 1)
      by (unfold timegm; replace (d + 1000000) with (d + 1 * 1000000) by lia;
          apply Z.div_add; lia).
    unfold d in Hs at 1. unfold ACCESS_TOKEN_EXPIRE_MINUTES in Hs at 1. lia. }
  unfold result_of.
  pose proof (jwt_decode_own_token s d w') as Hdec.
  split; intros Ht.
  - destruct (timegm d <? timegm (now w')) eqn:E; [apply Z.ltb_lt in E; lia|].
    split; [eexists; split; [exact Hdec | reflexivity]|].
    intros u Hfind. apply get_current_user_returns.
    eexists. exists s. split; [exact Hdec|]. split; [reflexivity | exact Hfind].
  - destruct (timegm d <? timegm (now w')) eqn:E; [|apply Z.ltb_ge in E; lia].
    split; [exact Hdec|]. apply get_current_user_JWTError. exact Hdec.
Qed.

(** ** Posting a message *)

Lemma fetch_one_room_by_id_run (room_id : Z) (w : World) :
  fetch_one_room_by_id room_id w =
  match find (fun r => r_id r =? room_id) (rooms (db w)) with
  | Some r => (Returns (Some r), w)
  | None =>
      if int32 room_id then (Returns None, w)
      else (Raises (Unhandled "DataError"), w)
  end.
Proof.
  unfold fetch_one_room_by_id, fetch_one, bind, get_db. simpl.
  destruct (find _ (rooms (db w))); [reflexivity|].
  destruct (int32 room_id); reflexivity.
Qed.

(** [post_message], step by step from the outcome of the dependency: the
    row is stamped with one reading of the clock, the response with the
    next one. *)
Lemma post_message_run (room_id : Z) (message_in : MessageIn)
    (authorization : option jws) (w : World) :
  post_message room_id message_in authorization w =
  match current_user_dependency authorization w with
  | (Raises e, w1) => (Raises e, w1)
  | (Returns u, w1) =>
      match find (fun r => r_id r =? room_id) (rooms (db w1)) with
      | None => (Raises (room_missing room_id), w1)
      | Some _ =>
          if pg_text (mi_content message_in) then
            (Returns (mkMessageOut (messages_seq (db w1) + 1) room_id (u_id u)
                        (mi_content message_in) (clock w1 (S (ticks w1)))),
             mkWorld (with_message (db w1) room_id (u_id u) (mi_content message_in)
                        (clock w1 (ticks w1)))
                     (clock w1) (S (S (ticks w1))) (salts w1) (draws w1))
          else
            (Raises (Unhandled "DataError"),
             mkWorld (db w1) (clock w1) (S (ticks w1)) (salts w1) (draws w1))
      end
  end.
Proof.
  unfold post_message. unfold bind at 1.
  destruct (current_user_dependency authorization w) as [[u|e] w1]; [|reflexivity].
  unfold bind at 1. rewrite fetch_one_room_by_id_run. unfold room_missing.
  destruct (find _ (rooms (db w1))).
  - unfold insert_message. unfold_monad. simpl.
    destruct (pg_text (mi_content message_in)); reflexivity.
  - destruct (int32 room_id); reflexivity.
Qed.

(** [post_message] in terms of the world it starts in. *)
Lemma post_message_cases (room_id : Z) (message_in : MessageIn)
    (authorization : option jws) (w : World) :
  let r := post_message room_id message_in authorization w in
  match fst (current_user_dependency authorization w) with
  | Raises e => result_of r = Raises e /\ db (world_of r) = db w
  | Returns u =>
      match find (fun r => r_id r =? room_id) (rooms (db w)) with
      | None =>
          result_of r = Raises (room_missing room_id) /\
          db (world_of r) = db w
      | Some _ =>
          if pg_text (mi_content message_in) then
            exists k : nat,
              (ticks w <= k)%nat /\
              result_of r =
                Returns (mkMessageOut (messages_seq (db w) + 1) room_id (u_id u)
                           (mi_content message_in) (clock w (S k))) /\
              db (world_of r) =
                with_message (db w) room_id (u_id u) (mi_content message_in)
                  (clock w k) /\
              clock (world_of r) = clock w /\
              ticks (world_of r) = S (S k)
          else
            result_of r = Raises (Unhandled "DataError") /\
            db (world_of r) = db w
      end
  end.
Proof.
  intros r. subst r. rewrite post_message_run.
  pose proof (current_user_dependency_frame authorization w) as Hf.
  destruct (current_user_dependency authorization w) as [[u|e] w1];
    simpl in Hf |- *; destruct Hf as (Hd & Hc & Hs & Hr & Ht).
  - rewrite Hd. destruct (find _ (rooms (db w))).
    + destruct (pg_text (mi_content message_in)).
      * exists (ticks w1). unfold result_of, world_of; simpl.
        rewrite Hc. repeat split; auto.
      * unfold result_of, world_of; simpl. auto.
    + unfold result_of, world_of; simpl. auto.
  - unfold result_of, world_of; simpl. auto.
Qed.

(** C2. When a post succeeds, the dependency resolved a stored user from
    the credential, and that user's id is the [user_id] both of the message
    returned and of the row appended; whatever path and body come with the
    same credential, a successful post has that same [user_id]. *)
Theorem post_message_author (room_id : Z) (message_in : MessageIn)
    (authorization : option jws) (w : World) (out : MessageOut) :
  result_of (post_message room_id message_in authorization w) = Returns out ->
  exists user row,
    result_of (current_user_dependency authorization w) = Returns user /\
    In user (users (db w)) /\
    mo_user_id out = u_id user /\
    messages (db (world_of (post_message room_id message_in authorization w)))
      = messages (db w) ++ [row] /\
    m_id row = mo_id out /\
    m_user_id row = u_id user /\
    forall room_id' message_in' out',
      result_of (post_message room_id' message_in' authorization w) = Returns out' ->
      mo_user_id out' = u_id user.
Proof.
  intros Hout.
  pose proof (post_message_cases room_id message_in authorization w) as Hc.
  simpl in Hc. unfold result_of, world_of in *.
  destruct (fst (current_user_dependency authorization w)) as [u|e] eqn:Ha.
  - destruct (find _ (rooms (db w))).
    + destruct (pg_text (mi_content message_in));
        [|destruct Hc as (Hr & _); congruence].
      destruct Hc as (k & Hk & Hr & Hd & _).
      rewrite Hr in Hout. inversion Hout; subst out. clear Hout.
      exists u. eexists. split; [reflexivity|].
      split; [eapply dependency_returns_row; eauto|].
      split; [reflexivity|]. rewrite Hd. simpl.
      split; [reflexivity|]. split; [reflexivity|]. split; [reflexivity|].
      intros room_id' message_in' out' Hout'.
      pose proof (post_message_cases room_id' message_in' authorization w) as Hc'.
      simpl in Hc'. unfold result_of, world_of in Hc'. rewrite Ha in Hc'.
      destruct (find _ (rooms (db w))).
      * destruct (pg_text (mi_content message_in'));
          [|destruct Hc' as (Hr' & _); congruence].
        destruct Hc' as (k' & _ & Hr' & _). rewrite Hr' in Hout'.
        inversion Hout'; reflexivity.
      * destruct Hc' as (Hr' & _). congruence.
    + destruct Hc as (Hr & _). congruence.
  - destruct Hc as (Hr & _). congruence.
Qed.

(** C4 (as amended). A post to a [room_id] that no stored room has inserts
    nothing, whatever it carries.  The dependency runs first: without a
    credential, or with a token that [jwt.decode] refuses, the answer is
    its 401; for a caller that resolves and a [room_id] within the 32 bits
    of the id column, the answer is 404 "Room not found". *)
Theorem post_message_unknown_room (room_id : Z) (message_in : MessageIn)
    (authorization : option jws) (w : World) :
  find (fun r => r_id r =? room_id) (rooms (db w)) = None ->
  db (world_of (post_message room_id message_in authorization w)) = db w /\
  (forall user,
     result_of (current_user_dependency authorization w) = Returns user ->
     int32 room_id = true ->
     result_of (post_message room_id message_in authorization w)
       = Raises (HTTPException 404 "Room not found" [])) /\
  ((authorization = None \/
    exists token, authorization = Some token /\
      result_of (jwt_decode token SECRET_KEY [ALGORITHM] w) = Raises JWTError) ->
   exists e,
     result_of (post_message room_id message_in authorization w) = Raises e /\
     status_of e = Some 401).
Proof.
  intros Hroom.
  pose proof (post_message_cases room_id message_in authorization w) as Hc.
  simpl in Hc. unfold result_of, world_of in *.
  split; [|split].
  - destruct (fst (current_user_dependency authorization w)); [|tauto].
    rewrite Hroom in Hc. tauto.
  - intros user Hu Hrange. rewrite Hu, Hroom in Hc. destruct Hc as (Hr & _).
    rewrite Hr. unfold room_missing. rewrite Hrange. reflexivity.
  - intros Hcred.
    destruct (dependency_unauthenticated authorization w Hcred) as (e & He & Hs).
    rewrite He in Hc. exists e. tauto.
Qed.

(** C7 (what the code does). When a post succeeds, the row appended is
    stamped with one reading of the clock and the message returned with the
    following one: on a clock that advances between readings, the timestamp
    returned is later than the timestamp stored for the same message id. *)
Theorem post_message_two_timestamps (room_id : Z) (message_in : MessageIn)
    (authorization : option jws) (w : World) (out : MessageOut) :
  (forall i : nat, clock w i < clock w (S i)) ->
  result_of (post_message room_id message_in authorization w) = Returns out ->
  exists row,
    messages (db (world_of (post_message room_id message_in authorization w)))
      = messages (db w) ++ [row] /\
    m_id row = mo_id out /\
    m_timestamp row < mo_timestamp out.
Proof.
  intros Hclock Hout.
  pose proof (post_message_cases room_id message_in authorization w) as Hc.
  simpl in Hc. unfold result_of, world_of in *.
  destruct (fst (current_user_dependency authorization w)) as [u|e].
  - destruct (find _ (rooms (db w))).
    + destruct (pg_text (mi_content message_in));
        [|destruct Hc as (Hr & _); congruence].
      destruct Hc as (k & Hk & Hr & Hd & _).
      rewrite Hr in Hout. inversion Hout; subst out. clear Hout.
      eexists. rewrite Hd. simpl. split; [reflexivity|].
      split; [reflexivity|]. apply Hclock.
    + destruct Hc as (Hr & _). congruence.
  - destruct Hc as (Hr & _). congruence.
Qed.

(** C8 (as amended). A successful post appends one row whose content is the
    content of the request, as it is; and the empty string is a content
    like another: for a caller that resolves and a stored room, the post
    with empty content succeeds and appends a message whose content is the
    empty string. *)
Theorem post_message_stores_content (room_id : Z) (message_in : MessageIn)
    (authorization : option jws) (w : World) :
  (forall out,
     result_of (post_message room_id message_in authorization w) = Returns out ->
     exists row,
       messages (db (world_of (post_message room_id message_in authorization w)))
         = messages (db w) ++ [row] /\
       m_content row = mi_content message_in /\
       mo_content out = mi_content message_in) /\
  (forall user room,
     result_of (current_user_dependency authorization w) = Returns user ->
     find (fun r => r_id r =? room_id) (rooms (db w)) = Some room ->
     exists out row,
       result_of (post_message room_id (mkMessageIn "") authorization w)
         = Returns out /\
       messages (db (world_of
                       (post_message room_id (mkMessageIn "") authorization w)))
         = messages (db w) ++ [row] /\
       m_content row = "" /\
       mo_content out = "").
Proof.
  split.
  - intros out Hout.
    pose proof (post_message_cases room_id message_in authorization w) as Hc.
    simpl in Hc. unfold result_of, world_of in *.
    destruct (fst (current_user_dependency authorization w)) as [u|e];
      [|destruct Hc as (Hr & _); congruence].
    destruct (find _ (rooms (db w)));
      [|destruct Hc as (Hr & _); congruence].
    destruct (pg_text (mi_content message_in));
      [|destruct Hc as (Hr & _); congruence].
    destruct Hc as (k & Hk & Hr & Hd & _).
    rewrite Hr in Hout. inversion Hout; subst out. clear Hout.
    eexists. rewrite Hd. simpl. repeat split; reflexivity.
  - intros user room Hu Hroom.
    pose proof (post_message_cases room_id (mkMessageIn "") authorization w) as Hc.
    simpl in Hc. unfold result_of, world_of in *.
    rewrite Hu, Hroom in Hc. destruct Hc as (k & _ & Hr & Hd & _).
    do 2 eexists. rewrite Hr, Hd. simpl. repeat split; reflexivity.
Qed.

(** ** Requests without a usable credential *)

(** A protected route starts with the dependency, and stops where the
    dependency raises. *)
Lemma protected_stops (req : request) (credential : option jws) (w w1 : World)
    (e : exn) :
  protected req = Some credential ->
  current_user_dependency credential w = (Raises e, w1) ->
  handle req w = (Raises e, w1).
Proof.
  intros Hp Hd.
  destruct req; simpl in Hp; inversion Hp; subst; simpl; unfold fmap;
    apply bind_raises;
    [ unfold create_room | unfold list_rooms | unfold post_message
    | unfold list_messages ];
    apply bind_raises; exact Hd.
Qed.

(** C9. A request to a protected route that carries no credential, or one
    that [jwt.decode] rejects, is answered with a 401, and the store after
    it is the store before it. *)
Theorem protected_requires_token (req : request) (credential : option jws)
    (w : World) :
  protected req = Some credential ->
  (credential = None \/
   exists token, credential = Some token /\
     result_of (jwt_decode token SECRET_KEY [ALGORITHM] w) = Raises JWTError) ->
  exists e,
    result_of (handle req w) = Raises e /\
    status_of e = Some 401 /\
    db (world_of (handle req w)) = db w.
Proof.
  intros Hp Hcred.
  pose proof (current_user_dependency_frame credential w) as Hf.
  destruct (dependency_unauthenticated credential w Hcred) as (e & He & Hs).
  destruct (current_user_dependency credential w) as [r w1] eqn:Hd.
  simpl in He, Hf. subst r.
  exists e. rewrite (protected_stops req credential w w1 e Hp Hd).
  unfold result_of, world_of; simpl.
  split; [reflexivity|]. split; [exact Hs | apply Hf].
Qed.

(** C10 (as amended). A token that [jwt.decode] accepts (signed with the
    process secret, its claims valid, not expired), whose payload has no
    subject, or whose subject is a username that the driver takes and no
    stored user has, gets from the resolution of the caller the very
    exception that a malformed token gets. *)
Theorem signed_token_without_user (token : jws) (body : payload) (w : World) :
  result_of (jwt_decode token SECRET_KEY [ALGORITHM] w) = Returns body ->
  (p_sub body = None \/
   exists name, p_sub body = Some (JString name) /\
     pg_text name = true /\
     find (fun u => String.eqb (u_username u) name) (users (db w)) = None) ->
  token = Compact ALGORITHM body (hmac_sign SECRET_KEY ALGORITHM body) /\
  result_of (get_current_user token w) = Raises credentials_exception /\
  forall (raw : string) (w' : World),
    result_of (get_current_user (Malformed raw) w') = Raises credentials_exception.
Proof.
  unfold result_of. intros Hdec Hsub.
  split; [|split].
  - destruct (jwt_decode_returns _ _ _ _ _ Hdec) as ((alg & Htok & Halg) & _).
    simpl in Halg. rewrite orb_false_r in Halg. apply String.eqb_eq in Halg.
    subst alg. exact Htok.
  - rewrite get_current_user_run.
    pose proof (jwt_decode_frame token SECRET_KEY [ALGORITHM] w) as Hf.
    destruct (jwt_decode token SECRET_KEY [ALGORITHM] w) as [[b|e] w1];
      simpl in Hdec, Hf; [|discriminate].
    inversion Hdec; subst b. destruct Hf as (Hd & _). rewrite Hd.
    destruct Hsub as [-> | (name & -> & Htext & Hfind)]; [reflexivity|].
    rewrite Hfind, Htext. reflexivity.
  - intros raw w'. rewrite get_current_user_run. reflexivity.
Qed.


(** ** Registration *)

Lemma register_run (user_in : UserIn) (w : World) :
  register user_in w =
  match find (fun u => String.eqb (u_username u) (ui_username user_in))
             (users (db w)) with
  | Some _ => (Raises (HTTPException 400 "Username already registered" []), w)
  | None =>
      if pg_text (ui_username user_in) then
        match bcrypt_hash (salts w (draws w)) (ui_password user_in) with
        | None => (Raises (Unhandled "PasswordValueError"), drawn w)
        | Some hashed =>
            if pg_text hashed then
              (Returns
                 (mkToken
                    (jwt_encode
                       (mkClaims (Some (JString (ui_username user_in)))
                          (Some (now w + timedelta_minutes ACCESS_TOKEN_EXPIRE_MINUTES)))
                       SECRET_KEY ALGORITHM)
                    "bearer"),
               mkWorld (with_user (db w) (ui_username user_in) hashed)
                       (clock w) (S (ticks w)) (salts w) (S (draws w)))
            else (Raises (Unhandled "DataError"), drawn w)
        end
      else (Raises (Unhandled "DataError"), w)
  end.
Proof.
  unfold register. unfold bind at 1. rewrite get_user_by_username_run.
  destruct (find _ (users (db w))); [reflexivity|].
  destruct (pg_text (ui_username user_in)) eqn:Hname; [|reflexivity].
  unfold get_password_hash, insert_user, drawn. unfold_monad. simpl.
  destruct (bcrypt_hash _ _) as [hashed|]; [|reflexivity].
  simpl. rewrite Hname. simpl.
  destruct (pg_text hashed); reflexivity.
Qed.

Lemma find_app_some {A} (f : A -> bool) (l l' : list A) (a : A) :
  find f l = Some a -> find f (l ++ l') = Some a.
Proof.
  induction l as [|x l IH]; simpl; [discriminate|].
  destruct (f x); auto.
Qed.

Lemma find_app_last {A} (f : A -> bool) (l : list A) (x : A) :
  f x = true -> exists a, find f (l ++ [x]) = Some a.
Proof.
  intros Hx. induction l as [|y l IH]; simpl.
  - rewrite Hx. eauto.
  - destruct (f y); eauto.
Qed.

(** ** What one request does to the world *)

Lemma only_reads_clock_comes_after (w w' : World) :
  only_reads_clock w w' -> comes_after w w'.
Proof.
  intros (Hd & Hc & _ & _ & Ht). unfold comes_after. rewrite Hd.
  repeat split; auto; try (exists []; rewrite app_nil_r; reflexivity).
Qed.

Lemma comes_after_refl (w : World) : comes_after w w.
Proof. apply only_reads_clock_comes_after, only_reads_clock_refl. Qed.

Lemma comes_after_reads (w w1 w' : World) :
  only_reads_clock w w1 -> comes_after w1 w' -> comes_after w w'.
Proof.
  intros (Hd & Hc & _ & _ & Ht) (Hc' & Ht' & Hu & Hr & Hm).
  unfold comes_after. rewrite Hd, Hc in *.
  repeat split; auto; try lia.
  destruct Hm as [Hm | (row & k & Hk & Hts & Hm)]; [left; exact Hm|].
  right. exists row, k. repeat split; auto; lia.
Qed.

Lemma register_comes_after (user_in : UserIn) (w : World) :
  comes_after w (snd (register user_in w)).
Proof.
  rewrite register_run.
  destruct (find _ (users (db w))); simpl; [apply comes_after_refl|].
  destruct (pg_text (ui_username user_in)); [|apply comes_after_refl].
  destruct (bcrypt_hash _ _) as [hashed|];
    [destruct (pg_text hashed)|];
    unfold comes_after, drawn; simpl; repeat split; eauto;
    exists []; rewrite app_nil_r; reflexivity.
Qed.

Lemma frames_get_user_by_username (name : string) :
  frames (get_user_by_username name).
Proof.
  intros w. rewrite get_user_by_username_run.
  destruct (find _ (users (db w))); [apply only_reads_clock_refl|].
  destruct (pg_text name); apply only_reads_clock_refl.
Qed.

Lemma frames_create_access_token (data : claims) (expires_delta : option timedelta) :
  frames (create_access_token data expires_delta).
Proof.
  unfold create_access_token, datetime_add.
  destruct expires_delta as [d|]; repeat frames_step.
Qed.

Lemma login_frame (submitted : LoginForm) (w : World) :
  only_reads_clock w (snd (login submitted w)).
Proof.
  revert w. change (frames (login submitted)).
  unfold login, OAuth2PasswordRequestForm, authenticate_user, verify_password.
  apply frames_bind; [repeat frames_step|]. intros form_data.
  apply frames_bind.
  - apply frames_bind; [apply frames_get_user_by_username|].
    intros [u|]; [|apply frames_ret].
    destruct (bcrypt_verify _ _); repeat frames_step.
  - intros [u|]; [|apply frames_raise].
    apply frames_bind; [apply frames_create_access_token|].
    intros t. apply frames_ret.
Qed.

Lemma create_room_run (room_in : RoomIn) (authorization : option jws) (w : World) :
  create_room room_in authorization w =
  match current_user_dependency authorization w with
  | (Raises e, w1) => (Raises e, w1)
  | (Returns u, w1) =>
      match find (fun r => String.eqb (r_name r) (ri_name room_in)) (rooms (db w1)) with
      | Some _ => (Raises (HTTPException 400 "Room already exists" []), w1)
      | None =>
          if pg_text (ri_name room_in) then
            (Returns (mkRoomOut (rooms_seq (db w1) + 1) (ri_name room_in)),
             mkWorld (with_room (db w1) (ri_name room_in))
                     (clock w1) (ticks w1) (salts w1) (draws w1))
          else (Raises (Unhandled "DataError"), w1)
      end
  end.
Proof.
  unfold create_room. unfold bind at 1.
  destruct (current_user_dependency authorization w) as [[u|e] w1]; [|reflexivity].
  unfold fetch_one_room_by_name, fetch_one, insert_room, bind, ret, raise,
    get_db, put_db. simpl.
  destruct (find _ (rooms (db w1))); [reflexivity|].
  destruct (pg_text (ri_name room_in)); reflexivity.
Qed.

Lemma create_room_comes_after (room_in : RoomIn) (authorization : option jws)
    (w : World) :
  comes_after w (snd (create_room room_in authorization w)).
Proof.
  rewrite create_room_run.
  pose proof (current_user_dependency_frame authorization w) as Hf.
  destruct (current_user_dependency authorization w) as [[u|e] w1]; simpl in Hf.
  - apply (comes_after_reads w w1); [exact Hf|].
    destruct (find _ (rooms (db w1))); simpl; [apply comes_after_refl|].
    destruct (pg_text (ri_name room_in)); simpl; [|apply comes_after_refl].
    unfold comes_after; simpl. repeat split; eauto.
    exists []. rewrite app_nil_r. reflexivity.
  - simpl. apply only_reads_clock_comes_after. exact Hf.
Qed.

Lemma list_rooms_run (authorization : option jws) (w : World) :
  list_rooms authorization w =
  match current_user_dependency authorization w with
  | (Raises e, w1) => (Raises e, w1)
  | (Returns u, w1) => (Returns (map RoomOut_of_row (rooms (db w1))), w1)
  end.
Proof.
  unfold list_rooms. unfold bind at 1.
  destruct (current_user_dependency authorization w) as [[u|e] w1]; reflexivity.
Qed.

Lemma list_rooms_frame (authorization : option jws) (w : World) :
  only_reads_clock w (snd (list_rooms authorization w)).
Proof.
  rewrite list_rooms_run.
  pose proof (current_user_dependency_frame authorization w) as Hf.
  destruct (current_user_dependency authorization w) as [[u|e] w1]; simpl in Hf;
    simpl; exact Hf.
Qed.

Lemma list_messages_run (room_id : Z) (authorization : option jws) (w : World) :
  list_messages room_id authorization w =
  match current_user_dependency authorization w with
  | (Raises e, w1) => (Raises e, w1)
  | (Returns u, w1) =>
      match find (fun r => r_id r =? room_id) (rooms (db w1)) with
      | None => (Raises (room_missing room_id), w1)
      | Some _ =>
          (Returns (map MessageOut_of_row
                      (order_by_timestamp
                         (where_room_id room_id (messages (db w1))))), w1)
      end
  end.
Proof.
  unfold list_messages. unfold bind at 1.
  destruct (current_user_dependency authorization w) as [[u|e] w1]; [|reflexivity].
  unfold bind at 1. rewrite fetch_one_room_by_id_run. unfold room_missing.
  destruct (find _ (rooms (db w1))); [reflexivity|].
  destruct (int32 room_id); reflexivity.
Qed.

Lemma list_messages_frame (room_id : Z) (authorization : option jws) (w : World) :
  only_reads_clock w (snd (list_messages room_id authorization w)).
Proof.
  rewrite list_messages_run.
  pose proof (current_user_dependency_frame authorization w) as Hf.
  destruct (current_user_dependency authorization w) as [[u|e] w1]; simpl in Hf.
  - destruct (find _ (rooms (db w1))); simpl; exact Hf.
  - simpl. exact Hf.
Qed.

Lemma post_message_comes_after (room_id : Z) (message_in : MessageIn)
    (authorization : option jws) (w : World) :
  comes_after w (snd (post_message room_id message_in authorization w)).
Proof.
  rewrite post_message_run.
  pose proof (current_user_dependency_frame authorization w) as Hf.
  destruct (current_user_dependency authorization w) as [[u|e] w1]; simpl in Hf.
  - apply (comes_after_reads w w1); [exact Hf|].
    destruct (find _ (rooms (db w1))); simpl; [|apply comes_after_refl].
    destruct (pg_text (mi_content message_in)); simpl.
    + unfold comes_after; simpl. repeat split; auto;
        try (exists []; rewrite app_nil_r; reflexivity).
      right. eexists. exists (ticks w1). repeat split; eauto.
    + unfold comes_after; simpl. repeat split; auto;
        exists []; rewrite app_nil_r; reflexivity.
  - simpl. apply only_reads_clock_comes_after. exact Hf.
Qed.

Lemma fmap_world {A B} (f : A -> B) (m : M A) (w : World) :
  snd (fmap f m w) = snd (m w).
Proof.
  unfold fmap, bind, ret. destruct (m w) as [[a|e] w1]; reflexivity.
Qed.

Lemma handle_comes_after (req : request) (w : World) :
  comes_after w (world_of (handle req w)).
Proof.
  unfold world_of. destruct req; cbv beta iota delta [handle]; rewrite fmap_world.
  - apply register_comes_after.
  - apply only_reads_clock_comes_after, login_frame.
  - apply create_room_comes_after.
  - apply only_reads_clock_comes_after, list_rooms_frame.
  - apply post_message_comes_after.
  - apply only_reads_clock_comes_after, list_messages_frame.
  - apply comes_after_refl.
Qed.

(** Stored users stay stored, whatever requests follow. *)
Lemma run_keeps_user (reqs : list request) (w : World) (name : string) (u : UserRow) :
  find (fun u => String.eqb (u_username u) name) (users (db w)) = Some u ->
  find (fun u => String.eqb (u_username u) name) (users (db (run reqs w))) = Some u.
Proof.
  revert w. induction reqs as [|req reqs IH]; intros w Hfind; simpl; [exact Hfind|].
  apply IH.
  destruct (handle_comes_after req w) as (_ & _ & (l & Hl) & _).
  rewrite Hl. apply find_app_some. exact Hfind.
Qed.

(** After a [register] that returned, the username is stored. *)
Lemma register_returns_stores (user_in : UserIn) (w : World) (t : Token) :
  fst (register user_in w) = Returns t ->
  exists u,
    find (fun u => String.eqb (u_username u) (ui_username user_in))
         (users (db (snd (register user_in w)))) = Some u.
Proof.
  rewrite register_run.
  destruct (find _ (users (db w))) as [u|] eqn:Hfind; [discriminate|].
  destruct (pg_text (ui_username user_in)); [|discriminate].
  destruct (bcrypt_hash _ _) as [hashed|]; [|discriminate].
  destruct (pg_text hashed); [|discriminate].
  intros _. simpl. apply find_app_last. simpl. apply String.eqb_refl.
Qed.

(** C5 (as amended). Registering a username that a stored user has fails
    with 400 "Username already registered", whatever the password, and
    leaves the world as it was; so after a registration of a username that
    succeeded, and whatever requests in between, another registration of
    it fails in that way. *)
Theorem register_duplicate_username (username p1 p2 : string)
    (reqs : list request) (w : World) :
  ((exists u, find (fun u => String.eqb (u_username u) username) (users (db w))
                = Some u) ->
   register (mkUserIn username p2) w
     = (Raises (HTTPException 400 "Username already registered" []), w)) /\
  (forall t,
     result_of (register (mkUserIn username p1) w) = Returns t ->
     let w2 := run reqs (world_of (register (mkUserIn username p1) w)) in
     register (mkUserIn username p2) w2
       = (Raises (HTTPException 400 "Username already registered" []), w2)).
Proof.
  assert (Hdup : forall w0 : World,
             (exists u, find (fun u => String.eqb (u_username u) username)
                          (users (db w0)) = Some u) ->
             register (mkUserIn username p2) w0
               = (Raises (HTTPException 400 "Username already registered" []), w0)).
  { intros w0 (u & Hu). rewrite register_run. simpl ui_username.
    rewrite Hu. reflexivity. }
  split; [apply Hdup|].
  intros t Ht w2. apply Hdup.
  destruct (register_returns_stores (mkUserIn username p1) w t Ht) as (u & Hu).
  exists u. unfold w2. apply run_keeps_user. exact Hu.
Qed.

(** C3 (what the code does). The debug route answers any request with
    every row of the users table as it is stored: each stored user's
    password hash is in the response. *)
Theorem list_users_shows_hashes (w : World) (u : UserRow) :
  In u (users (db w)) ->
  exists r,
    result_of (handle GET_debug_users w) = Returns r /\
    r = UsersBody (users (db w)) /\
    In (u_hashed_password u) (hashes_in r).
Proof.
  intros Hin. exists (UsersBody (users (db w))).
  split; [reflexivity|]. split; [reflexivity|].
  simpl. apply in_map. exact Hin.
Qed.

(** ** Messages of a room, in order *)

Lemma insert_by_timestamp_perm (x : MessageRow) (l : list MessageRow) :
  Permutation (x :: l) (insert_by_timestamp x l).
Proof.
  induction l as [|y l IH]; simpl; [apply Permutation_refl|].
  destruct (m_timestamp x <=? m_timestamp y); [apply Permutation_refl|].
  eapply perm_trans; [apply perm_swap|]. apply perm_skip. exact IH.
Qed.

Lemma order_by_timestamp_perm (l : list MessageRow) :
  Permutation l (order_by_timestamp l).
Proof.
  induction l as [|x l IH]; simpl; [constructor|].
  eapply perm_trans; [apply perm_skip; exact IH|].
  apply insert_by_timestamp_perm.
Qed.

Lemma insert_by_timestamp_sorted (x : MessageRow) (l : list MessageRow) :
  StronglySorted ts_le l -> StronglySorted ts_le (insert_by_timestamp x l).
Proof.
  induction l as [|y l IH]; intros Hs; simpl.
  - constructor; constructor.
  - inversion Hs as [|? ? Hl Hy]; subst.
    destruct (m_timestamp x <=? m_timestamp y) eqn:E.
    + apply Z.leb_le in E. constructor; [exact Hs|].
      constructor; [exact E|].
      eapply Forall_impl; [|exact Hy]. unfold ts_le. intros a Ha. lia.
    + apply Z.leb_gt in E. constructor; [apply IH; exact Hl|].
      eapply Permutation_Forall; [apply insert_by_timestamp_perm|].
      constructor; [unfold ts_le; lia | exact Hy].
Qed.

Lemma order_by_timestamp_sorted (l : list MessageRow) :
  StronglySorted ts_le (order_by_timestamp l).
Proof.
  induction l as [|x l IH]; simpl; [constructor|].
  apply insert_by_timestamp_sorted. exact IH.
Qed.

(** Rows already in timestamp order are left as they are. *)
Lemma order_by_timestamp_fixes_sorted (l : list MessageRow) :
  StronglySorted ts_le l -> order_by_timestamp l = l.
Proof.
  induction l as [|x l IH]; intros Hs; simpl; [reflexivity|].
  inversion Hs as [|? ? Hl Hx]; subst. rewrite (IH Hl).
  destruct l as [|y l']; simpl; [reflexivity|].
  inversion Hx as [|? ? Hxy _]; subst. unfold ts_le in Hxy.
  destruct (m_timestamp x <=? m_timestamp y) eqn:E; [reflexivity|].
  apply Z.leb_gt in E. lia.
Qed.

Lemma where_room_id_sorted (room_id : Z) (l : list MessageRow) :
  StronglySorted ts_le l -> StronglySorted ts_le (where_room_id room_id l).
Proof.
  unfold where_room_id. induction l as [|x l IH]; intros Hs; simpl; [constructor|].
  inversion Hs as [|? ? Hl Hx]; subst.
  destruct (m_room_id x =? room_id); [|apply IH; exact Hl].
  constructor; [apply IH; exact Hl|].
  apply Forall_forall. intros a Ha. apply filter_In in Ha.
  rewrite Forall_forall in Hx. apply Hx. tauto.
Qed.

Lemma sorted_snoc (l : list MessageRow) (x : MessageRow) :
  StronglySorted ts_le l -> Forall (fun a => ts_le a x) l ->
  StronglySorted ts_le (l ++ [x]).
Proof.
  induction l as [|y l IH]; intros Hs Hall; simpl.
  - constructor; constructor.
  - inversion Hs as [|? ? Hl Hy]; subst. inversion Hall as [|? ? Hyx Hall']; subst.
    constructor; [apply IH; assumption|].
    apply Forall_app. split; [exact Hy|]. constructor; [exact Hyx | constructor].
Qed.

Lemma map_MessageOut_sorted (l : list MessageRow) :
  StronglySorted ts_le l ->
  StronglySorted (fun a b => mo_timestamp a <= mo_timestamp b)
    (map MessageOut_of_row l).
Proof.
  induction 1 as [|x l Hl IH Hx]; simpl; constructor; [exact IH|].
  apply Forall_map. eapply Forall_impl; [|exact Hx]. intros a Ha. exact Ha.
Qed.

Lemma comes_after_stamped_in_order (w w' : World) :
  monotone (clock w) -> comes_after w w' ->
  stamped_in_order w -> stamped_in_order w'.
Proof.
  intros Hmono (Hc & Ht & _ & _ & Hm) (Hs & Hb).
  unfold stamped_in_order, now in *. rewrite Hc.
  assert (Hnow : clock w (ticks w) <= clock w (ticks w')) by (apply Hmono; lia).
  destruct Hm as [Hm | (row & k & Hk & Hts & Hm)]; rewrite Hm.
  - split; [exact Hs|]. eapply Forall_impl; [|exact Hb]. simpl. intros a Ha. lia.
  - assert (H1 : clock w (ticks w) <= clock w k) by (apply Hmono; lia).
    assert (H2 : clock w k <= clock w (ticks w')) by (apply Hmono; lia).
    split.
    + apply sorted_snoc; [exact Hs|].
      eapply Forall_impl; [|exact Hb]. unfold ts_le. simpl. intros a Ha. lia.
    + apply Forall_app. split.
      * eapply Forall_impl; [|exact Hb]. simpl. intros a Ha. lia.
      * constructor; [lia | constructor].
Qed.

Lemma run_stamped_in_order (reqs : list request) (w : World) :
  monotone (clock w) -> stamped_in_order w -> stamped_in_order (run reqs w).
Proof.
  revert w. induction reqs as [|req reqs IH]; intros w Hmono Hw; simpl; [exact Hw|].
  pose proof (handle_comes_after req w) as Hafter.
  apply IH.
  - destruct Hafter as (Hc & _). rewrite Hc. exact Hmono.
  - eapply comes_after_stamped_in_order; eauto.
Qed.

Lemma run_clock (reqs : list request) (w : World) : clock (run reqs w) = clock w.
Proof.
  revert w. induction reqs as [|req reqs IH]; intros w; simpl; [reflexivity|].
  rewrite IH. apply (handle_comes_after req w).
Qed.

(** C6 (as amended). For a stored room and a caller that resolves,
    [list_messages] returns the stored messages whose [room_id] is that
    room, all of them and no other, in non-decreasing timestamp order.
    That order is the order of insertion whenever the room's messages were
    inserted with non-decreasing timestamps, as they are in any world
    reached from start-up on a clock that never goes back. *)
Theorem list_messages_order (room_id : Z) (authorization : option jws)
    (w : World) (room : RoomRow) (user : UserRow) :
  find (fun r => r_id r =? room_id) (rooms (db w)) = Some room ->
  result_of (current_user_dependency authorization w) = Returns user ->
  exists rows,
    result_of (list_messages room_id authorization w)
      = Returns (map MessageOut_of_row rows) /\
    Permutation (filter (fun m => m_room_id m =? room_id) (messages (db w))) rows /\
    StronglySorted (fun a b => m_timestamp a <= m_timestamp b) rows /\
    StronglySorted (fun a b => mo_timestamp a <= mo_timestamp b)
      (map MessageOut_of_row rows) /\
    (StronglySorted (fun a b => m_timestamp a <= m_timestamp b)
       (filter (fun m => m_room_id m =? room_id) (messages (db w))) ->
     rows = filter (fun m => m_room_id m =? room_id) (messages (db w))) /\
    (forall clk slt reqs,
       w = run reqs (initial_world clk slt) -> monotone clk ->
       rows = filter (fun m => m_room_id m =? room_id) (messages (db w))).
Proof.
  intros Hroom Hauth. unfold result_of in *. rewrite list_messages_run.
  pose proof (current_user_dependency_frame authorization w) as Hf.
  destruct (current_user_dependency authorization w) as [[u|e] w1];
    simpl in Hauth, Hf; [|discriminate].
  destruct Hf as (Hd & _). rewrite Hd, Hroom. simpl.
  eexists. split; [reflexivity|].
  split; [apply order_by_timestamp_perm|].
  split; [apply order_by_timestamp_sorted|].
  split; [apply map_MessageOut_sorted, order_by_timestamp_sorted|].
  split.
  - intros Hsorted. apply order_by_timestamp_fixes_sorted. exact Hsorted.
  - intros clk slt reqs Hw Hmono.
    apply order_by_timestamp_fixes_sorted. apply where_room_id_sorted.
    rewrite Hw. apply run_stamped_in_order; [exact Hmono|].
    split; simpl; constructor.
Qed.

End Properties.

(** * The properties at concrete inputs *)

Lemma demo_clock_advances (i : nat) : demo_clock i < demo_clock (S i).
Proof. unfold demo_clock. rewrite Nat2Z.inj_succ. lia. Qed.

Lemma demo_clock_monotone : monotone demo_clock.
Proof. unfold monotone, demo_clock. intros i j Hij. lia. Qed.

(** alice's token resolves to alice two clock readings after it was issued,
    and no longer thirty-one minutes later. *)
Lemma issue_verify_round_trip_witness :
  exists token,
    result_of (create_access_token (crypto := demo_crypto)
                 (mkClaims (Some (JString "alice")) None) None demo_start)
      = Returns token /\
    result_of (get_current_user (crypto := demo_crypto) token demo_room_world)
      = Returns alice_row /\
    result_of (get_current_user (crypto := demo_crypto) token demo_late_world)
      = Raises credentials_exception.
Proof.
  destruct (issue_verify_round_trip (crypto := demo_crypto) "alice"
              demo_start demo_room_world eq_refl)
    as (token & exp & Hissue & _ & Hexp & _ & _ & Hbefore & _).
  destruct (issue_verify_round_trip (crypto := demo_crypto) "alice"
              demo_start demo_late_world eq_refl)
    as (token' & exp' & Hissue' & _ & Hexp' & _ & _ & _ & Hafter).
  rewrite Hissue in Hissue'. inversion Hissue'; subst token'. clear Hissue'.
  exists token. split; [exact Hissue|]. split.
  - assert (Hle : timegm (now demo_room_world) <= exp)
      by (rewrite Hexp; vm_compute; discriminate).
    destruct (Hbefore Hle) as (_ & Hresolves). apply Hresolves. reflexivity.
  - assert (Hlt : exp' < timegm (now demo_late_world))
      by (rewrite Hexp'; vm_compute; reflexivity).
    exact (proj2 (Hafter Hlt)).
Defined.

(** C1 as stated fails: the token issued at start-up expires thirty
    minutes later, and fifty milliseconds after that moment it still
    resolves to alice. *)
Lemma token_outlives_thirty_minutes :
  now demo_start + timedelta_minutes ACCESS_TOKEN_EXPIRE_MINUTES
    < now demo_just_late_world /\
  result_of (create_access_token (crypto := demo_crypto)
               (mkClaims (Some (JString "alice")) None) None demo_start)
    = Returns alice_token /\
  result_of (get_current_user (crypto := demo_crypto) alice_token
               demo_just_late_world)
    = Returns alice_row.
Proof.
  split; [reflexivity|]. split; reflexivity.
Qed.

Lemma post_message_author_witness :
  exists user row,
    result_of (current_user_dependency (crypto := demo_crypto)
                 (Some alice_token) demo_room_world) = Returns user /\
    In user (users (db demo_room_world)) /\
    1 = u_id user /\
    messages (db (world_of (post_message (crypto := demo_crypto) 1
                              (mkMessageIn "hi") (Some alice_token) demo_room_world)))
      = messages (db demo_room_world) ++ [row] /\
    m_id row = 1 /\
    m_user_id row = u_id user /\
    forall room_id' message_in' out',
      result_of (post_message (crypto := demo_crypto) room_id' message_in'
                   (Some alice_token) demo_room_world) = Returns out' ->
      mo_user_id out' = u_id user.
Proof.
  apply (post_message_author (crypto := demo_crypto) 1 (mkMessageIn "hi")
           (Some alice_token) demo_room_world
           (mkMessageOut 1 1 1 "hi" 1700000001000000)).
  vm_compute. reflexivity.
Defined.

Lemma list_users_shows_hashes_witness :
  In alice_row (users (db demo_room_world)) /\
  exists r,
    result_of (handle (crypto := demo_crypto) GET_debug_users demo_room_world)
      = Returns r /\
    r = UsersBody (users (db demo_room_world)) /\
    In "$2b$salt$pw1" (hashes_in r).
Proof.
  assert (Hin : In alice_row (users (db demo_room_world)))
    by (vm_compute; left; reflexivity).
  split; [exact Hin|].
  exact (list_users_shows_hashes (crypto := demo_crypto) demo_room_world alice_row Hin).
Defined.

(** C4 as stated fails: no room has id 7, and a post to it without a
    credential is answered 401, not 404. *)
Lemma post_unknown_room_without_token :
  find (fun r => r_id r =? 7) (rooms (db demo_room_world)) = None /\
  result_of (post_message (crypto := demo_crypto) 7 (mkMessageIn "hi") None
               demo_room_world)
    = Raises (HTTPException 401 "Not authenticated" [("WWW-Authenticate", "Bearer")]) /\
  ~ (exists e,
       result_of (post_message (crypto := demo_crypto) 7 (mkMessageIn "hi") None
                    demo_room_world) = Raises e /\
       status_of e = Some 404).
Proof.
  split; [reflexivity|]. split; [reflexivity|].
  intros (e & He & Hs). vm_compute in He. inversion He; subst e. discriminate.
Qed.

Lemma post_message_unknown_room_witness :
  db (world_of (post_message (crypto := demo_crypto) 7 (mkMessageIn "hi")
                  (Some alice_token) demo_room_world)) = db demo_room_world /\
  result_of (post_message (crypto := demo_crypto) 7 (mkMessageIn "hi")
               (Some alice_token) demo_room_world)
    = Raises (HTTPException 404 "Room not found" []).
Proof.
  destruct (post_message_unknown_room (crypto := demo_crypto) 7 (mkMessageIn "hi")
              (Some alice_token) demo_room_world) as (Hdb & Hfound & _);
    [reflexivity|].
  split; [exact Hdb|]. apply (Hfound alice_row); reflexivity.
Defined.

Lemma register_duplicate_username_witness :
  register (crypto := demo_crypto) (mkUserIn "alice" "pw2") demo_room_world
    = (Raises (HTTPException 400 "Username already registered" []), demo_room_world).
Proof.
  refine (proj2 (register_duplicate_username (crypto := demo_crypto)
                   "alice" "pw1" "pw2"
                   [POST_rooms (Some alice_token) (mkRoomIn "general")]
                   demo_start) (mkToken alice_token "bearer") _).
  reflexivity.
Defined.

(** C5 as stated fails: a first registration of carol whose password holds
    a NUL is refused by the hashing and stores nothing, and the second
    registration of carol then succeeds. *)
Lemma second_registration_succeeds :
  result_of (register (crypto := demo_crypto) carol_nul demo_start)
    = Raises (Unhandled "PasswordValueError") /\
  users (db (world_of (register (crypto := demo_crypto) carol_nul demo_start))) = [] /\
  exists t,
    result_of (register (crypto := demo_crypto) carol
                 (world_of (register (crypto := demo_crypto) carol_nul demo_start)))
      = Returns t.
Proof.
  split; [reflexivity|]. split; [reflexivity|]. eexists. reflexivity.
Qed.

Lemma list_messages_order_witness :
  exists rows,
    result_of (list_messages (crypto := demo_crypto) 1 (Some alice_token)
                 (run (crypto := demo_crypto) demo_chat_requests demo_start))
      = Returns (map MessageOut_of_row rows) /\
    rows = [mkMessageRow 1 1 1 "hi" 1700000000750000;
            mkMessageRow 2 1 1 "again" 1700000001500000].
Proof.
  destruct (list_messages_order (crypto := demo_crypto) 1 (Some alice_token)
              (run (crypto := demo_crypto) demo_chat_requests demo_start)
              (mkRoomRow 1 "general") alice_row eq_refl eq_refl)
    as (rows & Hres & _ & _ & _ & _ & Hreached).
  exists rows. split; [exact Hres|].
  exact (Hreached demo_clock demo_salts demo_chat_requests eq_refl
           demo_clock_monotone).
Defined.

(** C6 as stated fails: in the world reached from start-up on the clock
    that goes back, "again" was inserted after "hi" and is listed before
    it. *)
Lemma listing_against_insertion_order :
  demo_back_world
    = run (crypto := demo_crypto) demo_chat_requests
        (initial_world demo_back_clock demo_salts) /\
  filter (fun m => m_room_id m =? 1) (messages (db demo_back_world))
    = [mkMessageRow 1 1 1 "hi" 1699999999250000;
       mkMessageRow 2 1 1 "again" 1699999998500000] /\
  result_of (list_messages (crypto := demo_crypto) 1 (Some alice_token)
               demo_back_world)
    = Returns [mkMessageOut 2 1 1 "again" 1699999998500000;
               mkMessageOut 1 1 1 "hi" 1699999999250000].
Proof.
  split; [reflexivity|]. split; reflexivity.
Qed.

Lemma post_message_two_timestamps_witness :
  exists row,
    messages (db (world_of (post_message (crypto := demo_crypto) 1
                              (mkMessageIn "hi") (Some alice_token) demo_room_world)))
      = messages (db demo_room_world) ++ [row] /\
    m_id row = 1 /\
    m_timestamp row < 1700000001000000.
Proof.
  apply (post_message_two_timestamps (crypto := demo_crypto) 1 (mkMessageIn "hi")
           (Some alice_token) demo_room_world
           (mkMessageOut 1 1 1 "hi" 1700000001000000)).
  - exact demo_clock_advances.
  - vm_compute. reflexivity.
Defined.

(** C8 as stated fails: alice's post with the empty string as content
    succeeds and appends a message whose content is the empty string. *)
Lemma empty_content_is_stored :
  messages (db demo_room_world) = [] /\
  result_of (post_message (crypto := demo_crypto) 1 (mkMessageIn "")
               (Some alice_token) demo_room_world)
    = Returns (mkMessageOut 1 1 1 "" 1700000001000000) /\
  messages (db (world_of (post_message (crypto := demo_crypto) 1 (mkMessageIn "")
                            (Some alice_token) demo_room_world)))
    = [mkMessageRow 1 1 1 "" 1700000000750000].
Proof.
  split; [reflexivity|]. split; reflexivity.
Qed.

Lemma post_message_stores_content_witness :
  exists out row,
    result_of (post_message (crypto := demo_crypto) 1 (mkMessageIn "")
                 (Some alice_token) demo_room_world) = Returns out /\
    messages (db (world_of (post_message (crypto := demo_crypto) 1 (mkMessageIn "")
                              (Some alice_token) demo_room_world)))
      = messages (db demo_room_world) ++ [row] /\
    m_content row = "" /\
    mo_content out = "".
Proof.
  exact (proj2 (post_message_stores_content (crypto := demo_crypto) 1
                  (mkMessageIn "hi") (Some alice_token) demo_room_world)
           alice_row (mkRoomRow 1 "general") eq_refl eq_refl).
Defined.

Lemma protected_requires_token_witness :
  exists e,
    result_of (handle (crypto := demo_crypto)
                 (POST_rooms (Some (Malformed "xyz")) (mkRoomIn "general"))
                 demo_start) = Raises e /\
    status_of e = Some 401 /\
    db (world_of (handle (crypto := demo_crypto)
                    (POST_rooms (Some (Malformed "xyz")) (mkRoomIn "general"))
                    demo_start)) = db demo_start.
Proof.
  apply (protected_requires_token (crypto := demo_crypto)
           (POST_rooms (Some (Malformed "xyz")) (mkRoomIn "general"))
           (Some (Malformed "xyz")) demo_start).
  - reflexivity.
  - right. exists (Malformed "xyz"). split; reflexivity.
Defined.

Lemma signed_token_without_user_witness :
  result_of (get_current_user (crypto := demo_crypto)
               (Compact ALGORITHM bob_payload
                  (hmac_sign (Crypto := demo_crypto) SECRET_KEY ALGORITHM bob_payload))
               demo_room_world)
    = Raises credentials_exception.
Proof.
  refine (proj1 (proj2 (signed_token_without_user (crypto := demo_crypto)
                          _ bob_payload demo_room_world _ _))).
  - reflexivity.
  - right. exists "bob". repeat split; reflexivity.
Defined.

(** C10 as stated fails: a token signed with the process secret, without
    subject, whose "exp" is still ahead and whose "iat" is null, does not
    get the credentials error that a malformed token gets; the conversion
    of "iat" raises, and nothing catches it.  The same happens with null
    for "exp", which is no time that could have passed. *)
Lemma signed_token_with_null_claim :
  null_iat_token
    = Compact ALGORITHM null_iat_payload
        (hmac_sign (Crypto := demo_crypto) SECRET_KEY ALGORITHM null_iat_payload) /\
  p_sub null_iat_payload = None /\
  token_expiry null_iat_token = Some 1700003600 /\
  timegm (now demo_room_world) < 1700003600 /\
  result_of (get_current_user (crypto := demo_crypto) null_iat_token demo_room_world)
    = Raises (Unhandled "TypeError") /\
  null_exp_token
    = Compact ALGORITHM null_exp_payload
        (hmac_sign (Crypto := demo_crypto) SECRET_KEY ALGORITHM null_exp_payload) /\
  p_sub null_exp_payload = None /\
  result_of (get_current_user (crypto := demo_crypto) null_exp_token demo_room_world)
    = Raises (Unhandled "TypeError") /\
  result_of (get_current_user (crypto := demo_crypto) (Malformed "xyz")
               demo_room_world)
    = Raises credentials_exception.
Proof.
  repeat split; reflexivity.
Qed.

(** * Further properties of the routes *)

Section Extensions.

Context {crypto : Crypto}.

(** ** What one request does to the store *)

Lemma fmap_result {A B} (f : A -> B) (m : M A) (w : World) :
  fst (fmap f m w) =
  match fst (m w) with
  | Returns a => Returns (f a)
  | Raises e => Raises e
  end.
Proof.
  unfold fmap, bind, ret. destruct (m w) as [[a|e] w1]; reflexivity.
Qed.

Lemma fmap_appends_on_success {A B} (f : A -> B) (m : M A) (w : World) :
  appends_on_success m w -> appends_on_success (fmap f m) w.
Proof.
  unfold appends_on_success. rewrite fmap_world, fmap_result.
  intros [H | ((a & Ha) & H)]; [left; exact H|].
  right. rewrite Ha. eauto.
Qed.

Lemma register_appends_on_success (user_in : UserIn) (w : World) :
  appends_on_success (register user_in) w.
Proof.
  unfold appends_on_success. rewrite register_run.
  destruct (find _ (users (db w))) eqn:Hfind; simpl; [left; reflexivity|].
  destruct (pg_text (ui_username user_in)); [|left; reflexivity].
  destruct (bcrypt_hash _ _) as [hashed|]; [|left; reflexivity].
  destruct (pg_text hashed); [|left; reflexivity].
  right. split; [eexists; reflexivity|]. apply appended_user. exact Hfind.
Qed.

Lemma create_room_appends_on_success (room_in : RoomIn)
    (authorization : option jws) (w : World) :
  appends_on_success (create_room room_in authorization) w.
Proof.
  unfold appends_on_success. rewrite create_room_run.
  pose proof (current_user_dependency_frame authorization w) as Hf.
  destruct (current_user_dependency authorization w) as [[u|e] w1]; simpl in Hf;
    destruct Hf as (Hd & _); [|left; exact Hd].
  rewrite Hd.
  destruct (find _ (rooms (db w))) eqn:Hfind; simpl; [left; exact Hd|].
  destruct (pg_text (ri_name room_in)); simpl; [|left; exact Hd].
  right. split; [eexists; reflexivity|]. apply appended_room. exact Hfind.
Qed.

Lemma post_message_appends_on_success (room_id : Z) (message_in : MessageIn)
    (authorization : option jws) (w : World) :
  appends_on_success (post_message room_id message_in authorization) w.
Proof.
  unfold appends_on_success.
  pose proof (post_message_cases room_id message_in authorization w) as Hc.
  simpl in Hc. unfold result_of, world_of in Hc.
  destruct (fst (current_user_dependency authorization w)) as [u|e] eqn:Ha.
  - destruct (find _ (rooms (db w))) as [r|] eqn:Hroom.
    + destruct (pg_text (mi_content message_in)); [|left; tauto].
      destruct Hc as (k & _ & Hr & Hd & _). right. split; [eauto|].
      rewrite Hd. eapply appended_message; [|exact Hroom].
      eapply dependency_returns_row; eauto.
    + left. tauto.
  - left. tauto.
Qed.

Lemma handle_appends_on_success (req : request) (w : World) :
  appends_on_success (handle req) w.
Proof.
  destruct req; cbv beta iota delta [handle]; apply fmap_appends_on_success.
  - apply register_appends_on_success.
  - left. apply login_frame.
  - apply create_room_appends_on_success.
  - left. apply list_rooms_frame.
  - apply post_message_appends_on_success.
  - left. apply list_messages_frame.
  - left. reflexivity.
Qed.

(** X1. A request that is answered with an error, on any route and for
    any cause, leaves the store exactly as it was. *)
Theorem failed_request_changes_nothing (req : request) (w : World) (e : exn) :
  result_of (handle req w) = Raises e ->
  db (world_of (handle req w)) = db w.
Proof.
  unfold result_of, world_of. intros Hr.
  destruct (handle_appends_on_success req w) as [H | ((a & Ha) & _)]; [exact H|].
  congruence.
Qed.

(** X2. Logging in, listing rooms, listing messages and the debug listing
    never change the store, whatever they are given and whatever they
    answer. *)
Theorem reading_routes_change_nothing (req : request) (w : World) :
  writes req = false ->
  db (world_of (handle req w)) = db w.
Proof.
  unfold world_of.
  destruct req; intros Hw; try discriminate Hw;
    cbv beta iota delta [handle]; rewrite fmap_world.
  - apply login_frame.
  - apply list_rooms_frame.
  - apply list_messages_frame.
  - reflexivity.
Qed.

(** ** Rows stay *)

Lemma extends_refl {A} (l : list A) : extends l l.
Proof. exists []. rewrite app_nil_r. reflexivity. Qed.

Lemma extends_trans {A} (l1 l2 l3 : list A) :
  extends l1 l2 -> extends l2 l3 -> extends l1 l3.
Proof.
  intros (m1 & H1) (m2 & H2). exists (m1 ++ m2).
  rewrite H2, H1. rewrite app_assoc. reflexivity.
Qed.

Lemma run_extends_tables (reqs : list request) (w : World) :
  extends (users (db w)) (users (db (run reqs w))) /\
  extends (rooms (db w)) (rooms (db (run reqs w))) /\
  extends (messages (db w)) (messages (db (run reqs w))).
Proof.
  revert w. induction reqs as [|req reqs IH]; intros w; simpl.
  - repeat split; apply extends_refl.
  - destruct (IH (world_of (handle req w))) as (Hu & Hr & Hm).
    destruct (handle_comes_after req w) as (_ & _ & Hu0 & Hr0 & Hm0).
    repeat split.
    + eapply extends_trans; [exact Hu0 | exact Hu].
    + eapply extends_trans; [exact Hr0 | exact Hr].
    + eapply extends_trans; [|exact Hm].
      destruct Hm0 as [-> | (row & k & _ & _ & ->)];
        [apply extends_refl | exists [row]; reflexivity].
Qed.

(** X4. Rows are never removed, changed or reordered: after any sequence
    of requests each table is what it was with rows appended. *)
Theorem run_keeps_rows (reqs : list request) (w : World) :
  extends (users (db w)) (users (db (run reqs w))) /\
  extends (rooms (db w)) (rooms (db (run reqs w))) /\
  extends (messages (db w)) (messages (db (run reqs w))).
Proof. apply run_extends_tables. Qed.

(** ** Keys, names and references *)

Lemma keys_succ (n : nat) : keys (S n) = keys n ++ [Z.of_nat n + 1].
Proof.
  unfold keys. rewrite seq_S, map_app. simpl.
  replace (Z.pos (Pos.of_succ_nat n)) with (Z.of_nat n + 1) by lia.
  reflexivity.
Qed.

Lemma NoDup_snoc {A} (l : list A) (x : A) :
  NoDup l -> ~ In x l -> NoDup (l ++ [x]).
Proof.
  intros Hl Hx. eapply Permutation_NoDup; [apply Permutation_cons_append|].
  constructor; assumption.
Qed.

Lemma find_name_none {A} (name_of : A -> string) (name : string) (l : list A) :
  find (fun a => String.eqb (name_of a) name) l = None ->
  ~ In name (map name_of l).
Proof.
  intros Hfind Hin. apply in_map_iff in Hin. destruct Hin as (a & Ha & Hin).
  pose proof (find_none _ _ Hfind a Hin) as Hneq. simpl in Hneq.
  rewrite Ha, String.eqb_refl in Hneq. discriminate.
Qed.

Lemma appended_consistent (d d' : Database) :
  consistent d -> appended d d' -> consistent d'.
Proof.
  intros [Uk Us Rk Rs Mk Ms Un Rn Mr] Happ.
  destruct Happ as [username hashed Hfind | name Hfind | room_id u r content ts Hu Hr].
  - constructor; simpl; auto.
    + rewrite map_app, last_length, keys_succ, Uk, Us. reflexivity.
    + rewrite last_length, Us. lia.
    + rewrite map_app. simpl. apply NoDup_snoc; [exact Un|].
      apply find_name_none. exact Hfind.
    + eapply Forall_impl; [|exact Mr]. simpl. intros m (H1 & H2).
      split; [exact H1|]. rewrite map_app. apply in_or_app. left. exact H2.
  - constructor; simpl; auto.
    + rewrite map_app, last_length, keys_succ, Rk, Rs. reflexivity.
    + rewrite last_length, Rs. lia.
    + rewrite map_app. simpl. apply NoDup_snoc; [exact Rn|].
      apply find_name_none. exact Hfind.
    + eapply Forall_impl; [|exact Mr]. simpl. intros m (H1 & H2).
      split; [|exact H2]. rewrite map_app. apply in_or_app. left. exact H1.
  - constructor; simpl; auto.
    + rewrite map_app, last_length, keys_succ, Mk, Ms. reflexivity.
    + rewrite last_length, Ms. lia.
    + apply Forall_app. split; [exact Mr|].
      constructor; [|constructor]. simpl. split.
      * apply find_some in Hr. destruct Hr as (Hin & Heq).
        apply Z.eqb_eq in Heq. rewrite <- Heq. apply in_map. exact Hin.
      * apply in_map. exact Hu.
Qed.

Lemma run_consistent (reqs : list request) (w : World) :
  consistent (db w) -> consistent (db (run reqs w)).
Proof.
  revert w. induction reqs as [|req reqs IH]; intros w Hw; simpl; [exact Hw|].
  apply IH.
  destruct (handle_appends_on_success req w) as [H | (_ & H)].
  - unfold world_of. rewrite H. exact Hw.
  - eapply appended_consistent; eauto.
Qed.

Lemma keys_NoDup (n : nat) : NoDup (keys n).
Proof.
  unfold keys. apply Finite.Injective_map_NoDup; [|apply seq_NoDup].
  intros a b Hab. lia.
Qed.

(** X5. In every store reached from start-up by serving requests: the
    primary keys of each table are 1, 2, ... in insertion order (so no two
    rows share one), no two users share a username, no two rooms share a
    name, and every message refers to a stored room and a stored user. *)
Theorem reached_store_consistent (clk : nat -> datetime) (slt : nat -> string)
    (reqs : list request) :
  let d := db (run reqs (initial_world clk slt)) in
  consistent d /\
  NoDup (map u_id (users d)) /\
  NoDup (map r_id (rooms d)) /\
  NoDup (map m_id (messages d)) /\
  (forall m, In m (messages d) ->
     (exists r, In r (rooms d) /\ r_id r = m_room_id m) /\
     (exists u, In u (users d) /\ u_id u = m_user_id m)).
Proof.
  intros d.
  assert (Hc : consistent d).
  { unfold d. apply run_consistent. constructor; simpl; try reflexivity; constructor. }
  split; [exact Hc|]. destruct Hc as [Uk Us Rk Rs Mk Ms Un Rn Mr].
  split; [rewrite Uk; apply keys_NoDup|].
  split; [rewrite Rk; apply keys_NoDup|].
  split; [rewrite Mk; apply keys_NoDup|].
  intros m Hm. rewrite Forall_forall in Mr. destruct (Mr m Hm) as (H1 & H2).
  apply in_map_iff in H1. apply in_map_iff in H2.
  destruct H1 as (r & Hr & Hrin). destruct H2 as (u & Hu & Huin).
  split; eauto.
Qed.

(** ** Rooms *)

(** [create_room] in terms of the world it starts in. *)
Lemma create_room_cases (room_in : RoomIn) (authorization : option jws) (w : World) :
  let r := create_room room_in authorization w in
  match fst (current_user_dependency authorization w) with
  | Raises e => fst r = Raises e /\ db (snd r) = db w
  | Returns _ =>
      match find (fun r => String.eqb (r_name r) (ri_name room_in)) (rooms (db w)) with
      | Some _ =>
          fst r = Raises (HTTPException 400 "Room already exists" []) /\
          db (snd r) = db w
      | None =>
          if pg_text (ri_name room_in) then
            fst r = Returns (mkRoomOut (rooms_seq (db w) + 1) (ri_name room_in)) /\
            db (snd r) = with_room (db w) (ri_name room_in)
          else
            fst r = Raises (Unhandled "DataError") /\ db (snd r) = db w
      end
  end.
Proof.
  intros r. subst r. rewrite create_room_run.
  pose proof (current_user_dependency_frame authorization w) as Hf.
  destruct (current_user_dependency authorization w) as [[u|e] w1];
    simpl in Hf |- *; destruct Hf as (Hd & _).
  - rewrite Hd. destruct (find _ (rooms (db w))); simpl; auto.
    destruct (pg_text (ri_name room_in)); simpl; auto.
  - auto.
Qed.

Lemma run_keeps_room (reqs : list request) (w : World) (name : string) (r : RoomRow) :
  find (fun r => String.eqb (r_name r) name) (rooms (db w)) = Some r ->
  find (fun r => String.eqb (r_name r) name) (rooms (db (run reqs w))) = Some r.
Proof.
  intros Hfind. destruct (run_extends_tables reqs w) as (_ & (more & Hr) & _).
  rewrite Hr. apply find_app_some. exact Hfind.
Qed.

Lemma keys_bounds (n : nat) (k : Z) : In k (keys n) -> 1 <= k <= Z.of_nat n.
Proof.
  unfold keys. intros Hin. apply in_map_iff in Hin.
  destruct Hin as (i & Hi & Hin). apply in_seq in Hin. lia.
Qed.

Lemma find_app_none {A} (f : A -> bool) (l l' : list A) :
  find f l = None -> find f (l ++ l') = find f l'.
Proof.
  induction l as [|x l IH]; simpl; [reflexivity|].
  destruct (f x); [discriminate | exact IH].
Qed.

(** X11. When a room is created, the response carries the name asked for
    and the next value of the sequence as id, and the room is the one row
    appended to the table.  From then on: listing the rooms, for any caller
    that resolves, gives the rooms listed before followed by this one;
    after any further requests, creating a room of that name again is
    answered 400 for a caller that resolves; and in a store whose keys are
    in sequence, looking the new id up finds this room. *)
Theorem create_room_then_stored (room_in : RoomIn) (authorization : option jws)
    (w : World) (out : RoomOut) :
  result_of (create_room room_in authorization w) = Returns out ->
  out = mkRoomOut (rooms_seq (db w) + 1) (ri_name room_in) /\
  rooms (db (world_of (create_room room_in authorization w)))
    = rooms (db w) ++ [mkRoomRow (ro_id out) (ro_name out)] /\
  (forall authorization' user,
     result_of (current_user_dependency authorization'
                  (world_of (create_room room_in authorization w))) = Returns user ->
     result_of (list_rooms authorization'
                  (world_of (create_room room_in authorization w)))
       = Returns (map RoomOut_of_row (rooms (db w)) ++ [out])) /\
  (forall reqs authorization' user,
     result_of (current_user_dependency authorization'
                  (run reqs (world_of (create_room room_in authorization w))))
       = Returns user ->
     result_of (create_room room_in authorization'
                  (run reqs (world_of (create_room room_in authorization w))))
       = Raises (HTTPException 400 "Room already exists" [])) /\
  (consistent (db w) ->
   find (fun r => r_id r =? ro_id out)
        (rooms (db (world_of (create_room room_in authorization w))))
     = Some (mkRoomRow (ro_id out) (ro_name out))).
Proof.
  unfold result_of, world_of. intros Hout.
  pose proof (create_room_cases room_in authorization w) as Hc. simpl in Hc.
  destruct (fst (current_user_dependency authorization w)) as [u|e];
    [|destruct Hc as (Hr & _); congruence].
  destruct (find _ (rooms (db w))) eqn:Hfind;
    [destruct Hc as (Hr & _); congruence|].
  destruct (pg_text (ri_name room_in)) eqn:Hname;
    [|destruct Hc as (Hr & _); congruence].
  destruct Hc as (Hr & Hd). rewrite Hr in Hout. inversion Hout; subst out.
  clear Hout. rewrite Hd. simpl.
  split; [reflexivity|]. split; [reflexivity|]. split; [|split].
  - intros authorization' user Hauth. rewrite list_rooms_run.
    pose proof (current_user_dependency_frame authorization'
                  (snd (create_room room_in authorization w))) as Hf.
    destruct (current_user_dependency authorization'
                (snd (create_room room_in authorization w))) as [[u'|e'] w1];
      simpl in Hauth, Hf; [|discriminate].
    destruct Hf as (Hd1 & _). simpl. rewrite Hd1, Hd. simpl.
    rewrite map_app. reflexivity.
  - intros reqs authorization' user Hauth.
    set (w2 := run reqs (snd (create_room room_in authorization w))) in *.
    pose proof (create_room_cases room_in authorization' w2) as Hc2. simpl in Hc2.
    rewrite Hauth in Hc2.
    assert (Hroom : find (fun r => String.eqb (r_name r) (ri_name room_in))
                      (rooms (db w2))
                    = Some (mkRoomRow (rooms_seq (db w) + 1) (ri_name room_in))).
    { unfold w2. apply run_keeps_room. rewrite Hd. simpl.
      rewrite (find_app_none _ _ _ Hfind). simpl.
      rewrite String.eqb_refl. reflexivity. }
    rewrite Hroom in Hc2. tauto.
  - intros [_ _ Rk Rs _ _ _ _ _].
    rewrite find_app_none.
    + simpl. rewrite Z.eqb_refl. reflexivity.
    + destruct (find (fun r => r_id r =? rooms_seq (db w) + 1) (rooms (db w)))
        as [r|] eqn:Hid; [|reflexivity].
      apply find_some in Hid. destruct Hid as (Hin & Heq).
      apply Z.eqb_eq in Heq.
      assert (Hk : In (r_id r) (keys (List.length (rooms (db w)))))
        by (rewrite <- Rk; apply in_map; exact Hin).
      apply keys_bounds in Hk. lia.
Qed.

(** ** Messages *)

(** X12. In a world reached from start-up on a clock that never goes
    back: after a successful post to a room, listing that room's messages,
    for any caller that resolves, gives the messages listed before followed
    by the new one, with the id, author and content of the response, and
    with the stored timestamp, which is not later than the timestamp of the
    response. *)
Theorem post_message_then_listed (clk : nat -> datetime) (slt : nat -> string)
    (reqs : list request) (room_id : Z) (message_in : MessageIn)
    (authorization authorization' : option jws) (out : MessageOut)
    (user : UserRow) :
  let w := run reqs (initial_world clk slt) in
  let w1 := world_of (post_message room_id message_in authorization w) in
  monotone clk ->
  result_of (post_message room_id message_in authorization w) = Returns out ->
  result_of (current_user_dependency authorization' w1) = Returns user ->
  exists stored,
    result_of (list_messages room_id authorization' w1)
      = Returns (map MessageOut_of_row
                   (filter (fun m => m_room_id m =? room_id) (messages (db w)))
                 ++ [stored]) /\
    mo_id stored = mo_id out /\
    mo_room_id stored = room_id /\
    mo_user_id stored = mo_user_id out /\
    mo_content stored = mi_content message_in /\
    mo_timestamp stored <= mo_timestamp out.
Proof.
  intros w w1 Hmono Hout Hauth.
  assert (Hclk : clock w = clk) by (unfold w; rewrite run_clock; reflexivity).
  assert (Hinv : stamped_in_order w).
  { unfold w. apply run_stamped_in_order; [exact Hmono|]. split; simpl; constructor. }
  assert (Hinv1 : stamped_in_order w1).
  { eapply comes_after_stamped_in_order; [rewrite Hclk; exact Hmono | | exact Hinv].
    apply post_message_comes_after. }
  destruct Hinv1 as (Hsorted1 & _).
  pose proof (post_message_cases room_id message_in authorization w) as Hc.
  simpl in Hc. unfold result_of, world_of in *. fold w1 in Hc.
  destruct (fst (current_user_dependency authorization w)) as [u|e];
    [|destruct Hc as (Hr & _); congruence].
  destruct (find (fun r => r_id r =? room_id) (rooms (db w))) as [room|] eqn:Hroom;
    [|destruct Hc as (Hr & _); congruence].
  destruct (pg_text (mi_content message_in));
    [|destruct Hc as (Hr & _); congruence].
  destruct Hc as (k & Hk & Hr & Hd & _).
  rewrite Hr in Hout. inversion Hout; subst out. clear Hout.
  pose proof (where_room_id_sorted room_id _ Hsorted1) as Hsel.
  rewrite list_messages_run.
  pose proof (current_user_dependency_frame authorization' w1) as Hf.
  destruct (current_user_dependency authorization' w1) as [[u'|e'] w2];
    simpl in Hauth, Hf; [|discriminate].
  destruct Hf as (Hd2 & _). rewrite Hd2.
  replace (rooms (db w1)) with (rooms (db w)) by (rewrite Hd; reflexivity).
  rewrite Hroom. simpl.
  rewrite (order_by_timestamp_fixes_sorted _ Hsel).
  unfold where_room_id. rewrite Hd. simpl.
  rewrite filter_app, map_app. simpl. rewrite Z.eqb_refl. simpl.
  eexists. split; [reflexivity|]. simpl.
  repeat split; try reflexivity.
  rewrite Hclk. apply Hmono. lia.
Qed.

(** X14. On any store and any clock: for a stored room and a caller that
    resolves, [list_messages] returns, and what it returns are the stored
    messages of that room, each once, arranged by non-decreasing timestamp;
    where timestamps are out of insertion order, the listing follows the
    timestamps. *)
Theorem list_messages_by_timestamp (room_id : Z) (authorization : option jws)
    (w : World) (room : RoomRow) (user : UserRow) :
  find (fun r => r_id r =? room_id) (rooms (db w)) = Some room ->
  result_of (current_user_dependency authorization w) = Returns user ->
  exists rows,
    result_of (list_messages room_id authorization w)
      = Returns (map MessageOut_of_row rows) /\
    Permutation (filter (fun m => m_room_id m =? room_id) (messages (db w))) rows /\
    StronglySorted (fun a b => m_timestamp a <= m_timestamp b) rows.
Proof.
  intros Hroom Hauth. unfold result_of in *. rewrite list_messages_run.
  pose proof (current_user_dependency_frame authorization w) as Hf.
  destruct (current_user_dependency authorization w) as [[u|e] w1];
    simpl in Hauth, Hf; [|discriminate].
  destruct Hf as (Hd & _). rewrite Hd, Hroom. simpl.
  eexists. split; [reflexivity|].
  split; [apply order_by_timestamp_perm | apply order_by_timestamp_sorted].
Qed.

(** X18. In a world reached from start-up on a clock that never goes
    back, the stored messages are in non-decreasing timestamp order as
    inserted, and none is stamped later than the clock's next reading. *)
Theorem reached_messages_stamped_in_order (clk : nat -> datetime)
    (slt : nat -> string) (reqs : list request) :
  let w := run reqs (initial_world clk slt) in
  monotone clk ->
  StronglySorted (fun a b => m_timestamp a <= m_timestamp b) (messages (db w)) /\
  Forall (fun m => m_timestamp m <= now w) (messages (db w)).
Proof.
  intros w Hmono. apply run_stamped_in_order; [exact Hmono|].
  split; simpl; constructor.
Qed.

(** X19. In a store whose keys are in sequence, the id a successful post
    returns is the number of messages stored so far plus one, and is the id
    of none of them. *)
Theorem post_message_fresh_id (room_id : Z) (message_in : MessageIn)
    (authorization : option jws) (w : World) (out : MessageOut) :
  consistent (db w) ->
  result_of (post_message room_id message_in authorization w) = Returns out ->
  mo_id out = Z.of_nat (List.length (messages (db w))) + 1 /\
  ~ In (mo_id out) (map m_id (messages (db w))).
Proof.
  intros [_ _ _ _ Mk Ms _ _ _] Hout.
  pose proof (post_message_cases room_id message_in authorization w) as Hc.
  simpl in Hc. unfold result_of in *.
  destruct (fst (current_user_dependency authorization w)) as [u|e];
    [|destruct Hc as (Hr & _); congruence].
  destruct (find _ (rooms (db w)));
    [|destruct Hc as (Hr & _); congruence].
  destruct (pg_text (mi_content message_in));
    [|destruct Hc as (Hr & _); congruence].
  destruct Hc as (k & _ & Hr & _). rewrite Hr in Hout.
  inversion Hout; subst out. simpl. rewrite Ms.
  split; [reflexivity|].
  intros Hin. rewrite Mk in Hin. apply keys_bounds in Hin. lia.
Qed.

(** ** The errors of each route *)

Lemma dependency_raises_status (authorization : option jws) (w w1 : World) (e : exn) :
  current_user_dependency authorization w = (Raises e, w1) ->
  status_of e = Some 401 \/ status_of e = Some 500.
Proof.
  intros H. apply dependency_error_status.
  apply (dependency_raises authorization w). rewrite H. reflexivity.
Qed.

Lemma login_run (submitted : LoginForm) (w : World) :
  login submitted w =
  if String.eqb (form_username submitted) "" || String.eqb (form_password submitted) ""
  then (Raises RequestValidationError, w)
  else
    match find (fun u => String.eqb (u_username u) (form_username submitted))
               (users (db w)) with
    | None =>
        if pg_text (form_username submitted)
        then (Raises (HTTPException 400 "Incorrect username or password" []), w)
        else (Raises (Unhandled "DataError"), w)
    | Some u =>
        match bcrypt_verify (form_password submitted) (u_hashed_password u) with
        | None => (Raises (Unhandled "PasswordValueError"), w)
        | Some true =>
            (Returns
               (mkToken
                  (jwt_encode
                     (mkClaims (Some (JString (u_username u)))
                        (Some (now w + timedelta_minutes ACCESS_TOKEN_EXPIRE_MINUTES)))
                     SECRET_KEY ALGORITHM)
                  "bearer"),
             mkWorld (db w) (clock w) (S (ticks w)) (salts w) (draws w))
        | Some false =>
            (Raises (HTTPException 400 "Incorrect username or password" []), w)
        end
    end.
Proof.
  unfold login, OAuth2PasswordRequestForm. unfold bind at 1.
  destruct (String.eqb (form_username submitted) ""
            || String.eqb (form_password submitted) ""); [reflexivity|].
  unfold ret at 1. cbv beta iota.
  unfold authenticate_user, verify_password.
  unfold bind at 1. unfold bind at 1. rewrite get_user_by_username_run.
  destruct (find _ (users (db w))) as [u|].
  - destruct (bcrypt_verify _ _) as [[|]|]; reflexivity.
  - destruct (pg_text (form_username submitted)); reflexivity.
Qed.

(** X3. For a request of the declared types, whatever a route raises has
    a status the route can be read to give: 400 for registration, 422 or
    400 for login, 401 or 400 for creating a room, 401 for listing rooms,
    401 or 404 for posting and listing messages, and on each of these 500
    where an exception is not handled (the driver or passlib refusing a
    value, python-jose raising something other than [JWTError]); the debug
    listing raises nothing.  No [JWTError] leaves a route. *)
Theorem route_error_statuses (req : request) (w : World) (e : exn) :
  result_of (handle req w) = Raises e ->
  exists status, status_of e = Some status /\ In status (error_statuses req).
Proof.
  unfold result_of.
  destruct req; cbv beta iota delta [handle]; rewrite fmap_result; simpl error_statuses.
  - rewrite register_run.
    destruct (find _ (users (db w))); simpl;
      [intros H; inversion H; subst; exists 400; simpl; auto|].
    destruct (pg_text (ui_username user_in)); simpl;
      [|intros H; inversion H; subst; exists 500; simpl; auto].
    destruct (bcrypt_hash _ _) as [hashed|]; simpl;
      [|intros H; inversion H; subst; exists 500; simpl; auto].
    destruct (pg_text hashed); simpl; intros H; inversion H; subst.
    exists 500. simpl. auto.
  - rewrite login_run.
    destruct (String.eqb (form_username submitted) ""
              || String.eqb (form_password submitted) ""); simpl;
      [intros H; inversion H; subst; exists 422; simpl; auto|].
    destruct (find _ (users (db w))) as [u|]; simpl.
    + destruct (bcrypt_verify _ _) as [[|]|]; simpl; intros H; inversion H; subst;
        [exists 400 | exists 500]; simpl; auto.
    + destruct (pg_text (form_username submitted)); simpl;
        intros H; inversion H; subst; [exists 400 | exists 500]; simpl; auto.
  - rewrite create_room_run.
    destruct (current_user_dependency authorization w) as [[u|e'] w1] eqn:Hd.
    + destruct (find _ (rooms (db w1))); simpl;
        [intros H; inversion H; subst; exists 400; simpl; auto|].
      destruct (pg_text (ri_name room_in)); simpl; intros H; inversion H; subst.
      exists 500. simpl. auto.
    + simpl. intros H; inversion H; subst.
      destruct (dependency_raises_status _ _ _ _ Hd) as [Hs | Hs];
        [exists 401 | exists 500]; simpl; auto.
  - rewrite list_rooms_run.
    destruct (current_user_dependency authorization w) as [[u|e'] w1] eqn:Hd;
      simpl; intros H; inversion H; subst.
    destruct (dependency_raises_status _ _ _ _ Hd) as [Hs | Hs];
      [exists 401 | exists 500]; simpl; auto.
  - rewrite post_message_run.
    destruct (current_user_dependency authorization w) as [[u|e'] w1] eqn:Hd.
    + destruct (find _ (rooms (db w1))); simpl.
      * destruct (pg_text (mi_content message_in)); simpl;
          intros H; inversion H; subst. exists 500. simpl. auto.
      * unfold room_missing. destruct (int32 room_id);
          intros H; inversion H; subst; [exists 404 | exists 500]; simpl; auto.
    + simpl. intros H; inversion H; subst.
      destruct (dependency_raises_status _ _ _ _ Hd) as [Hs | Hs];
        [exists 401 | exists 500]; simpl; auto.
  - rewrite list_messages_run.
    destruct (current_user_dependency authorization w) as [[u|e'] w1] eqn:Hd.
    + destruct (find _ (rooms (db w1))); simpl; [discriminate|].
      unfold room_missing. destruct (int32 room_id);
        intros H; inversion H; subst; [exists 404 | exists 500]; simpl; auto.
    + simpl. intros H; inversion H; subst.
      destruct (dependency_raises_status _ _ _ _ Hd) as [Hs | Hs];
        [exists 401 | exists 500]; simpl; auto.
  - simpl. discriminate.
Qed.

(** ** Logging in and registering *)

(** What a token of this process for subject [s] resolves to, while the
    clock's whole seconds have not passed its expiry: the stored user named
    [s]. *)
Lemma own_token_resolves (s : string) (d : datetime) (w : World) (u : UserRow) :
  timegm (now w) <= timegm d ->
  find (fun u => String.eqb (u_username u) s) (users (db w)) = Some u ->
  fst (get_current_user
         (jwt_encode (mkClaims (Some (JString s)) (Some d)) SECRET_KEY ALGORITHM) w)
  = Returns u.
Proof.
  intros Ht Hfind. apply get_current_user_returns.
  pose proof (jwt_decode_own_token s d w) as Hdec.
  destruct (timegm d <? timegm (now w)) eqn:E; [apply Z.ltb_lt in E; lia|].
  eexists. exists s. split; [exact Hdec|]. split; [reflexivity | exact Hfind].
Qed.

(** X6. A login whose two fields are filled in, under a username that the
    driver takes and no stored user has, or with a password that bcrypt
    finds not to match the stored hash, gets one and the same answer, 400
    "Incorrect username or password", and nothing in the world changes: no
    token is issued and the clock is not read. *)
Theorem login_rejected (submitted : LoginForm) (w : World) :
  form_username submitted <> "" ->
  form_password submitted <> "" ->
  ((find (fun u => String.eqb (u_username u) (form_username submitted))
         (users (db w)) = None /\
    pg_text (form_username submitted) = true) \/
   exists u,
     find (fun u => String.eqb (u_username u) (form_username submitted))
          (users (db w)) = Some u /\
     bcrypt_verify (form_password submitted) (u_hashed_password u) = Some false) ->
  login submitted w
    = (Raises (HTTPException 400 "Incorrect username or password" []), w).
Proof.
  intros Hu Hp Hcase. rewrite login_run.
  apply String.eqb_neq in Hu. apply String.eqb_neq in Hp. rewrite Hu, Hp. simpl.
  destruct Hcase as [(-> & ->) | (u & -> & ->)]; reflexivity.
Qed.

(** X7. A login whose two fields are filled in, with a password that
    bcrypt finds to match the hash stored under the username, returns a
    bearer token and leaves the store as it is; after any further requests,
    and as long as the clock's whole seconds are not more than thirty
    minutes past those of the login, that token resolves to the very user
    row that logged in. *)
Theorem login_token_resolves (submitted : LoginForm) (w : World) (u : UserRow) :
  representable (now w + timedelta_minutes ACCESS_TOKEN_EXPIRE_MINUTES) = true ->
  form_username submitted <> "" ->
  form_password submitted <> "" ->
  find (fun u => String.eqb (u_username u) (form_username submitted))
       (users (db w)) = Some u ->
  bcrypt_verify (form_password submitted) (u_hashed_password u) = Some true ->
  exists t,
    result_of (login submitted w) = Returns t /\
    token_type t = "bearer" /\
    db (world_of (login submitted w)) = db w /\
    forall reqs : list request,
      let w' := run reqs (world_of (login submitted w)) in
      timegm (now w') <= timegm (now w) + 30 * 60 ->
      result_of (get_current_user (access_token t) w') = Returns u.
Proof.
  intros _ Hu Hp Hfind Hverify. unfold result_of, world_of.
  rewrite login_run.
  apply String.eqb_neq in Hu. apply String.eqb_neq in Hp. rewrite Hu, Hp. simpl orb.
  cbv iota. rewrite Hfind, Hverify.
  eexists. split; [reflexivity|]. split; [reflexivity|]. split; [reflexivity|].
  intros reqs Ht. cbn [fst snd access_token] in *.
  apply own_token_resolves.
  - rewrite timegm_plus_minutes. exact Ht.
  - assert (Hname : u_username u = form_username submitted).
    { apply find_some in Hfind. destruct Hfind as (_ & Heq).
      apply String.eqb_eq in Heq. exact Heq. }
    rewrite Hname. apply run_keeps_user. exact Hfind.
Qed.

(** X8. Registering a username that is not yet stored, when the driver
    takes the username, passlib hashes the password and the driver takes
    the hash, appends one user row: its key is the next value of the
    sequence, its password column is what passlib returned under the salt
    drawn.  The token returned resolves to that row after any further
    requests, as long as the clock's whole seconds are not more than thirty
    minutes past those of the registration. *)
Theorem register_token_resolves (user_in : UserIn) (w : World) (hashed : string) :
  representable (now w + timedelta_minutes ACCESS_TOKEN_EXPIRE_MINUTES) = true ->
  find (fun u => String.eqb (u_username u) (ui_username user_in))
       (users (db w)) = None ->
  pg_text (ui_username user_in) = true ->
  bcrypt_hash (salts w (draws w)) (ui_password user_in) = Some hashed ->
  pg_text hashed = true ->
  let row := mkUserRow (users_seq (db w) + 1) (ui_username user_in) hashed in
  exists t,
    result_of (register user_in w) = Returns t /\
    token_type t = "bearer" /\
    users (db (world_of (register user_in w))) = users (db w) ++ [row] /\
    forall reqs : list request,
      let w' := run reqs (world_of (register user_in w)) in
      timegm (now w') <= timegm (now w) + 30 * 60 ->
      result_of (get_current_user (access_token t) w') = Returns row.
Proof.
  intros _ Hfind Hname Hhash Htext row. unfold result_of, world_of.
  rewrite register_run, Hfind, Hname, Hhash, Htext.
  eexists. split; [reflexivity|]. split; [reflexivity|]. split; [reflexivity|].
  intros reqs Ht. cbn [fst snd access_token] in *.
  apply own_token_resolves.
  - rewrite timegm_plus_minutes. exact Ht.
  - apply run_keeps_user. simpl.
    rewrite (find_app_none _ _ _ Hfind). simpl.
    rewrite String.eqb_refl. reflexivity.
Qed.

(** X9. After a registration that stored a username with the hash of a
    password, and whatever requests follow, a login under that username
    with both fields filled in goes by what bcrypt makes of the password
    given against that hash: a bearer token if it matches, 400 if it does
    not, and passlib's own exception if it refuses the password. *)
Theorem register_then_login (user_in : UserIn) (password : string)
    (reqs : list request) (w : World) (hashed : string) :
  find (fun u => String.eqb (u_username u) (ui_username user_in))
       (users (db w)) = None ->
  pg_text (ui_username user_in) = true ->
  bcrypt_hash (salts w (draws w)) (ui_password user_in) = Some hashed ->
  pg_text hashed = true ->
  ui_username user_in <> "" ->
  password <> "" ->
  representable (now w + timedelta_minutes ACCESS_TOKEN_EXPIRE_MINUTES) = true ->
  let w' := run reqs (world_of (register user_in w)) in
  representable (now w' + timedelta_minutes ACCESS_TOKEN_EXPIRE_MINUTES) = true ->
  result_of (login (mkLoginForm (ui_username user_in) password) w') =
  match bcrypt_verify password hashed with
  | Some true =>
      Returns (mkToken
                 (jwt_encode
                    (mkClaims (Some (JString (ui_username user_in)))
                       (Some (now w' + timedelta_minutes ACCESS_TOKEN_EXPIRE_MINUTES)))
                    SECRET_KEY ALGORITHM)
                 "bearer")
  | Some false => Raises (HTTPException 400 "Incorrect username or password" [])
  | None => Raises (Unhandled "PasswordValueError")
  end.
Proof.
  intros Hfind Hname Hhash Htext Hu Hp _ w' _.
  set (row := mkUserRow (users_seq (db w) + 1) (ui_username user_in) hashed).
  assert (Hrow : find (fun u => String.eqb (u_username u) (ui_username user_in))
                   (users (db w')) = Some row).
  { unfold w'. apply run_keeps_user. unfold world_of.
    rewrite register_run, Hfind, Hname, Hhash, Htext. simpl.
    rewrite (find_app_none _ _ _ Hfind). simpl.
    rewrite String.eqb_refl. reflexivity. }
  unfold result_of. rewrite login_run. simpl form_username.
  simpl form_password.
  apply String.eqb_neq in Hu. apply String.eqb_neq in Hp. rewrite Hu, Hp. simpl orb.
  cbv iota. rewrite Hrow. simpl u_hashed_password.
  destruct (bcrypt_verify password hashed) as [[|]|]; reflexivity.
Qed.

(** X10. Creating a room under a name that a stored room has never
    succeeds and changes nothing: a caller that resolves is answered 400
    "Room already exists", and where the dependency raises, what it raises
    is the answer. *)
Theorem create_room_duplicate_name (room_in : RoomIn) (authorization : option jws)
    (w : World) (r : RoomRow) :
  find (fun r => String.eqb (r_name r) (ri_name room_in)) (rooms (db w)) = Some r ->
  db (world_of (create_room room_in authorization w)) = db w /\
  match result_of (current_user_dependency authorization w) with
  | Returns _ =>
      result_of (create_room room_in authorization w)
        = Raises (HTTPException 400 "Room already exists" [])
  | Raises e =>
      result_of (create_room room_in authorization w) = Raises e
  end.
Proof.
  intros Hfind. unfold result_of, world_of.
  pose proof (create_room_cases room_in authorization w) as Hc. simpl in Hc.
  destruct (fst (current_user_dependency authorization w)) as [u|e].
  - rewrite Hfind in Hc. tauto.
  - tauto.
Qed.

(** X13. Listing the messages of a [room_id] that no stored room has
    changes nothing.  For a caller that resolves it is answered 404 "Room
    not found" when the id is within the 32 bits of the id column, and with
    the driver's error when it is not; where the dependency raises, what it
    raises is the answer. *)
Theorem list_messages_unknown_room (room_id : Z) (authorization : option jws)
    (w : World) :
  find (fun r => r_id r =? room_id) (rooms (db w)) = None ->
  db (world_of (list_messages room_id authorization w)) = db w /\
  match result_of (current_user_dependency authorization w) with
  | Returns _ =>
      result_of (list_messages room_id authorization w)
        = Raises (if int32 room_id
                  then HTTPException 404 "Room not found" []
                  else Unhandled "DataError")
  | Raises e =>
      result_of (list_messages room_id authorization w) = Raises e
  end.
Proof.
  intros Hroom. unfold result_of, world_of.
  split; [apply list_messages_frame|].
  rewrite list_messages_run.
  pose proof (current_user_dependency_frame authorization w) as Hf.
  destruct (current_user_dependency authorization w) as [[u|e] w1] eqn:Hdep;
    simpl in Hf |- *.
  - destruct Hf as (Hd & _). rewrite Hd, Hroom. reflexivity.
  - reflexivity.
Qed.

(** ** Tokens *)

(** X15. Where the clock's reading plus the lifetime is a [datetime],
    [create_access_token] returns a token, and for a string subject that
    token decodes at any moment exactly when the clock's whole seconds are
    then not past those of the issuance plus the lifetime; the lifetime is
    the [expires_delta] given, except that an absent and a zero delta both
    mean the configured thirty minutes.  Where the sum with a delta that is
    passed and not zero is no [datetime], it raises [OverflowError]. *)
Theorem access_token_lifetime (s : string) (expires_delta : option timedelta)
    (w w' : World) :
  lifetime (Some 0) = lifetime None /\
  (representable (now w + lifetime expires_delta) = true ->
   exists token,
     result_of (create_access_token (mkClaims (Some (JString s)) None)
                  expires_delta w) = Returns token /\
     token_expiry token = Some (timegm (now w + lifetime expires_delta)) /\
     ((exists body,
         result_of (jwt_decode token SECRET_KEY [ALGORITHM] w') = Returns body /\
         p_sub body = Some (JString s))
      <-> timegm (now w') <= timegm (now w + lifetime expires_delta))) /\
  (representable (now w + lifetime expires_delta) = false ->
   forall d, expires_delta = Some d -> d <> 0 ->
     result_of (create_access_token (mkClaims (Some (JString s)) None)
                  expires_delta w) = Raises (Unhandled "OverflowError")).
Proof.
  split; [reflexivity|]. split.
  - intros Hrange.
    exists (jwt_encode (mkClaims (Some (JString s))
                          (Some (now w + lifetime expires_delta)))
              SECRET_KEY ALGORITHM).
    split.
    + unfold result_of, create_access_token, datetime_add, lifetime, now in *.
      unfold bind, ret, raise, utcnow. simpl.
      destruct expires_delta as [d|]; [|reflexivity].
      destruct (d =? 0); [reflexivity|]. simpl. rewrite Hrange. reflexivity.
    + split; [reflexivity|].
      unfold result_of. rewrite jwt_decode_own_token.
      destruct (timegm (now w + lifetime expires_delta) <? timegm (now w')) eqn:E.
      * apply Z.ltb_lt in E. split; [intros (body & H & _); discriminate | lia].
      * apply Z.ltb_ge in E. split; [intros _; exact E|].
        intros _. eexists. split; reflexivity.
  - intros Hrange d -> Hd.
    unfold result_of, create_access_token, datetime_add, lifetime, now in *.
    unfold bind, ret, raise, utcnow. simpl.
    apply Z.eqb_neq in Hd. rewrite Hd in *. simpl. rewrite Hrange. reflexivity.
Qed.

(** X16. [get_current_user] returns a user exactly when [jwt.decode]
    accepts the token and the subject of its payload is the username of a
    stored user, the one returned; a token accepted carries the algorithm
    HS256 and, as signature, the HMAC of its payload under the process
    secret.  A token that [jwt.decode] refuses with [JWTError] gets the
    credentials error, and whatever else [get_current_user] raises is an
    exception that nothing catches. *)
Theorem get_current_user_accepts (token : jws) (w : World) (u : UserRow) :
  (result_of (get_current_user token w) = Returns u <->
   exists body name,
     result_of (jwt_decode token SECRET_KEY [ALGORITHM] w) = Returns body /\
     token = Compact ALGORITHM body (hmac_sign SECRET_KEY ALGORITHM body) /\
     p_sub body = Some (JString name) /\
     find (fun u => String.eqb (u_username u) name) (users (db w)) = Some u) /\
  (result_of (jwt_decode token SECRET_KEY [ALGORITHM] w) = Raises JWTError ->
   result_of (get_current_user token w) = Raises credentials_exception) /\
  (forall e, result_of (get_current_user token w) = Raises e ->
             e = credentials_exception \/ exists exception, e = Unhandled exception).
Proof.
  unfold result_of. split; [|split].
  - rewrite get_current_user_returns. split.
    + intros (body & name & Hdec & Hsub & Hfind). exists body, name.
      split; [exact Hdec|]. split; [|tauto].
      destruct (jwt_decode_returns _ _ _ _ _ Hdec) as ((alg & Htok & Halg) & _).
      simpl in Halg. rewrite orb_false_r in Halg. apply String.eqb_eq in Halg.
      subst alg. exact Htok.
    + intros (body & name & Hdec & _ & Hsub & Hfind). eauto.
  - apply get_current_user_JWTError.
  - intros e. apply get_current_user_raises.
Qed.

(** X17. A post succeeds exactly when the credential resolves to a stored
    user, the room is stored and the driver takes the content as text: any
    user may write to any room, and nothing else is asked of the
    content. *)
Theorem post_message_succeeds_iff (room_id : Z) (message_in : MessageIn)
    (authorization : option jws) (w : World) :
  (exists out,
     result_of (post_message room_id message_in authorization w) = Returns out)
  <->
  (exists user,
     result_of (current_user_dependency authorization w) = Returns user) /\
  (exists room,
     find (fun r => r_id r =? room_id) (rooms (db w)) = Some room) /\
  pg_text (mi_content message_in) = true.
Proof.
  unfold result_of.
  pose proof (post_message_cases room_id message_in authorization w) as Hc.
  simpl in Hc. unfold result_of in Hc.
  destruct (fst (current_user_dependency authorization w)) as [u|e].
  - destruct (find _ (rooms (db w))) as [room|].
    + destruct (pg_text (mi_content message_in)).
      * destruct Hc as (k & _ & Hr & _). rewrite Hr. split; eauto.
      * destruct Hc as (Hr & _). rewrite Hr. split.
        -- intros (out & H). discriminate.
        -- intros (_ & _ & H). discriminate.
    + destruct Hc as (Hr & _). rewrite Hr. split.
      * intros (out & H). discriminate.
      * intros (_ & (room & H) & _). discriminate.
  - destruct Hc as (Hr & _). rewrite Hr. split.
    + intros (out & H). discriminate.
    + intros ((user & H) & _). discriminate.
Qed.

End Extensions.

(** * The further properties at concrete inputs *)

Lemma failed_request_changes_nothing_witness :
  db (world_of (handle (crypto := demo_crypto) (POST_register alice) demo_room_world))
    = db demo_room_world.
Proof.
  apply (failed_request_changes_nothing (crypto := demo_crypto)
           (POST_register alice) demo_room_world
           (HTTPException 400 "Username already registered" [])).
  reflexivity.
Defined.

Lemma reading_routes_change_nothing_witness :
  db (world_of (handle (crypto := demo_crypto)
                  (GET_room_messages (Some alice_token) 1) demo_back_world))
    = db demo_back_world.
Proof.
  apply (reading_routes_change_nothing (crypto := demo_crypto)
           (GET_room_messages (Some alice_token) 1) demo_back_world).
  reflexivity.
Defined.

Lemma route_error_statuses_witness :
  exists status,
    status_of (HTTPException 400 "Room already exists" []) = Some status /\
    In status
       (error_statuses (POST_rooms (Some alice_token) (mkRoomIn "general"))).
Proof.
  apply (route_error_statuses (crypto := demo_crypto)
           (POST_rooms (Some alice_token) (mkRoomIn "general")) demo_room_world).
  reflexivity.
Defined.

Lemma login_rejected_witness :
  login (crypto := demo_crypto) (mkLoginForm "alice" "wrong") demo_room_world
    = (Raises (HTTPException 400 "Incorrect username or password" []),
       demo_room_world).
Proof.
  apply (login_rejected (crypto := demo_crypto)).
  - discriminate.
  - discriminate.
  - right. exists alice_row. split; reflexivity.
Defined.

Lemma login_token_resolves_witness :
  exists t,
    result_of (login (crypto := demo_crypto) (mkLoginForm "alice" "pw1")
                 demo_room_world) = Returns t /\
    result_of (get_current_user (crypto := demo_crypto) (access_token t)
                 (run (crypto := demo_crypto) [GET_rooms (Some alice_token)]
                    (world_of (login (crypto := demo_crypto)
                                 (mkLoginForm "alice" "pw1") demo_room_world))))
      = Returns alice_row.
Proof.
  assert (Hu : form_username (mkLoginForm "alice" "pw1") <> "") by discriminate.
  assert (Hp : form_password (mkLoginForm "alice" "pw1") <> "") by discriminate.
  destruct (login_token_resolves (crypto := demo_crypto)
              (mkLoginForm "alice" "pw1") demo_room_world alice_row
              eq_refl Hu Hp eq_refl eq_refl) as (t & Hlogin & _ & _ & Hresolves).
  exists t. split; [exact Hlogin|].
  apply (Hresolves [GET_rooms (Some alice_token)]).
  vm_compute. discriminate.
Defined.

Lemma register_token_resolves_witness :
  exists t,
    result_of (register (crypto := demo_crypto) (mkUserIn "bob" "pw2")
                 demo_room_world) = Returns t /\
    result_of (get_current_user (crypto := demo_crypto) (access_token t)
                 (run (crypto := demo_crypto) [GET_rooms (Some alice_token)]
                    (world_of (register (crypto := demo_crypto)
                                 (mkUserIn "bob" "pw2") demo_room_world))))
      = Returns (mkUserRow 2 "bob" "$2b$salt$pw2").
Proof.
  destruct (register_token_resolves (crypto := demo_crypto)
              (mkUserIn "bob" "pw2") demo_room_world "$2b$salt$pw2"
              eq_refl eq_refl eq_refl eq_refl eq_refl)
    as (t & Hregister & _ & _ & Hresolves).
  exists t. split; [exact Hregister|].
  apply (Hresolves [GET_rooms (Some alice_token)]).
  vm_compute. discriminate.
Defined.

Lemma register_then_login_witness :
  result_of (login (crypto := demo_crypto) (mkLoginForm "alice" "pw1")
               demo_room_world)
    = Returns (mkToken
                 (Compact "HS256"
                    (mkPayload (Some (JString "alice")) (Some (IntOf 1700001800))
                       None None None false false)
                    "boicandance:HS256:alice")
                 "bearer").
Proof.
  assert (Hu : ui_username alice <> "") by discriminate.
  assert (Hp : "pw1" <> "") by discriminate.
  exact (register_then_login (crypto := demo_crypto) alice "pw1"
           [POST_rooms (Some alice_token) (mkRoomIn "general")] demo_start
           "$2b$salt$pw1" eq_refl eq_refl eq_refl eq_refl Hu Hp eq_refl eq_refl).
Defined.

Lemma create_room_duplicate_name_witness :
  db (world_of (create_room (crypto := demo_crypto) (mkRoomIn "general")
                  (Some alice_token) demo_room_world)) = db demo_room_world /\
  result_of (create_room (crypto := demo_crypto) (mkRoomIn "general")
               (Some alice_token) demo_room_world)
    = Raises (HTTPException 400 "Room already exists" []).
Proof.
  exact (create_room_duplicate_name (crypto := demo_crypto) (mkRoomIn "general")
           (Some alice_token) demo_room_world (mkRoomRow 1 "general") eq_refl).
Defined.

Lemma create_room_then_stored_witness :
  rooms (db (world_of (create_room (crypto := demo_crypto) (mkRoomIn "random")
                         (Some alice_token) demo_room_world)))
    = rooms (db demo_room_world) ++ [mkRoomRow 2 "random"].
Proof.
  exact (proj1 (proj2 (create_room_then_stored (crypto := demo_crypto)
                         (mkRoomIn "random") (Some alice_token) demo_room_world
                         (mkRoomOut 2 "random") eq_refl))).
Defined.

Lemma post_message_then_listed_witness :
  exists stored,
    result_of (list_messages (crypto := demo_crypto) 1 (Some alice_token)
                 (world_of (post_message (crypto := demo_crypto) 1
                              (mkMessageIn "again") (Some alice_token)
                              (run (crypto := demo_crypto) demo_one_message
                                 demo_start))))
      = Returns ([mkMessageOut 1 1 1 "hi" 1700000000750000] ++ [stored]) /\
    mo_id stored = 2 /\
    mo_room_id stored = 1 /\
    mo_user_id stored = 1 /\
    mo_content stored = "again" /\
    mo_timestamp stored <= 1700000001750000.
Proof.
  exact (post_message_then_listed (crypto := demo_crypto) demo_clock demo_salts
           demo_one_message 1 (mkMessageIn "again") (Some alice_token)
           (Some alice_token) (mkMessageOut 2 1 1 "again" 1700000001750000)
           alice_row demo_clock_monotone eq_refl eq_refl).
Defined.

Lemma list_messages_unknown_room_witness :
  db (world_of (list_messages (crypto := demo_crypto) 7 (Some alice_token)
                  demo_room_world)) = db demo_room_world /\
  result_of (list_messages (crypto := demo_crypto) 7 (Some alice_token)
               demo_room_world)
    = Raises (HTTPException 404 "Room not found" []).
Proof.
  exact (list_messages_unknown_room (crypto := demo_crypto) 7 (Some alice_token)
           demo_room_world eq_refl).
Defined.

(** On the clock that goes back, "again" was inserted after "hi" and is
    listed before it. *)
Lemma list_messages_by_timestamp_witness :
  messages (db demo_back_world)
    = [mkMessageRow 1 1 1 "hi" 1699999999250000;
       mkMessageRow 2 1 1 "again" 1699999998500000] /\
  result_of (list_messages (crypto := demo_crypto) 1 (Some alice_token)
               demo_back_world)
    = Returns [mkMessageOut 2 1 1 "again" 1699999998500000;
               mkMessageOut 1 1 1 "hi" 1699999999250000] /\
  exists rows,
    result_of (list_messages (crypto := demo_crypto) 1 (Some alice_token)
                 demo_back_world) = Returns (map MessageOut_of_row rows) /\
    Permutation (filter (fun m => m_room_id m =? 1) (messages (db demo_back_world)))
                rows /\
    StronglySorted (fun a b => m_timestamp a <= m_timestamp b) rows.
Proof.
  split; [reflexivity|]. split; [reflexivity|].
  exact (list_messages_by_timestamp (crypto := demo_crypto) 1 (Some alice_token)
           demo_back_world (mkRoomRow 1 "general") alice_row eq_refl eq_refl).
Defined.

Lemma reached_messages_stamped_in_order_witness :
  StronglySorted (fun a b => m_timestamp a <= m_timestamp b)
    (messages (db (run (crypto := demo_crypto) demo_chat_requests demo_start))) /\
  Forall (fun m => m_timestamp m
                   <= now (run (crypto := demo_crypto) demo_chat_requests demo_start))
    (messages (db (run (crypto := demo_crypto) demo_chat_requests demo_start))).
Proof.
  exact (reached_messages_stamped_in_order (crypto := demo_crypto) demo_clock
           demo_salts demo_chat_requests demo_clock_monotone).
Defined.

Lemma demo_one_message_consistent :
  consistent (db (run (crypto := demo_crypto) demo_one_message demo_start)).
Proof.
  apply (run_consistent (crypto := demo_crypto)).
  constructor; simpl; try reflexivity; constructor.
Qed.

Lemma post_message_fresh_id_witness :
  2 = Z.of_nat (List.length
                  (messages (db (run (crypto := demo_crypto) demo_one_message
                                   demo_start)))) + 1 /\
  ~ In 2 (map m_id (messages (db (run (crypto := demo_crypto) demo_one_message
                                    demo_start)))).
Proof.
  exact (post_message_fresh_id (crypto := demo_crypto) 1 (mkMessageIn "again")
           (Some alice_token)
           (run (crypto := demo_crypto) demo_one_message demo_start)
           (mkMessageOut 2 1 1 "again" 1700000001750000)
           demo_one_message_consistent eq_refl).
Defined.

(** X15 at alice's name from start-up: the token issued for five minutes
    carries the start-up second plus three hundred, and with the largest
    [timedelta] the addition overflows. *)
Lemma access_token_lifetime_witness :
  (exists token,
     result_of (create_access_token (crypto := demo_crypto)
                  (mkClaims (Some (JString "alice")) None)
                  (Some (timedelta_minutes 5)) demo_start) = Returns token /\
     token_expiry token = Some (timegm (now demo_start) + 300)) /\
  result_of (create_access_token (crypto := demo_crypto)
               (mkClaims (Some (JString "alice")) None)
               (Some 86399999999999999999) demo_start)
    = Raises (Unhandled "OverflowError").
Proof.
  split.
  - destruct (access_token_lifetime (crypto := demo_crypto) "alice"
                (Some (timedelta_minutes 5)) demo_start demo_room_world)
      as (_ & Hin & _).
    destruct (Hin eq_refl) as (token & Hissue & Hexp & _).
    exists token. split; [exact Hissue | exact Hexp].
  - destruct (access_token_lifetime (crypto := demo_crypto) "alice"
                (Some 86399999999999999999) demo_start demo_room_world)
      as (_ & _ & Hout).
    apply (Hout eq_refl 86399999999999999999 eq_refl). discriminate.
Defined.
